(** * Telemetry hooks and the pin-data mixin of the n8n editor

    A shallow embedding of
      - [packages/editor-ui/src/components/mixins/pinData.ts] (module [PinData]);
      - the [InternalHooksClass] telemetry class (module [InternalHooks]).

    Conventions.
      - A JavaScript string is a [string]; each character stands for one
        UTF-16 code unit (the model is restricted to code units below 256).
        The upper case of U+00B5 and of U+00FF is a code unit beyond 255: a
        text that [toUpperCase] is applied to holds neither of the two.
      - A JavaScript number that holds a count, a size or an index is a [Z]
        or a [nat]; decimal printing is stdpp's [pretty].
      - Calls to collaborators that are not part of the embedded files
        ([JSON.parse], the store, the locale, the analytics client, ...) are
        parameters; the calls a method makes are recorded in a trace. *)

From Stdlib Require Import ZArith String Ascii List Lia Bool.
From stdpp Require Import base tactics option list gmap strings pretty.

Local Open Scope Z_scope.

(** ** JavaScript string primitives used by the sources *)

Module JsString.

(** [s.startsWith(p)] *)
Fixpoint starts_with (p s : string) : bool :=
  match p, s with
  | EmptyString, _ => true
  | String a p', String b s' => if Ascii.eqb a b then starts_with p' s' else false
  | String _ _, EmptyString => false
  end.

(** [s.slice(0, n)] for [0 <= n]: the first [n] code units, or all of [s]. *)
Fixpoint take (n : nat) (s : string) : string :=
  match n, s with
  | O, _ => EmptyString
  | S n', String c s' => String c (take n' s')
  | S _, EmptyString => EmptyString
  end.

(** [s.slice(n)] for [0 <= n]. *)
Fixpoint drop (n : nat) (s : string) : string :=
  match n, s with
  | O, _ => s
  | S n', String _ s' => drop n' s'
  | S _, EmptyString => EmptyString
  end.

Definition newline : ascii := Ascii.ascii_of_nat 10.

(** [(s.match(/\n/g) || []).length] *)
Fixpoint count_newlines (s : string) : nat :=
  match s with
  | EmptyString => O
  | String c s' =>
      if Ascii.eqb c newline then S (count_newlines s') else count_newlines s'
  end.

(** [s.endsWith(p)] *)
Definition ends_with (p s : string) : bool :=
  String.eqb (drop (String.length s - String.length p) s) p.

(** White space and line terminators removed by [String.prototype.trim],
    among the code units below 256. *)
Definition is_space (c : ascii) : bool :=
  let n := Ascii.nat_of_ascii c in
  ((9 <=? n)%nat && (n <=? 13)%nat) || (n =? 32)%nat || (n =? 160)%nat.

Fixpoint trim_start (s : string) : string :=
  match s with
  | EmptyString => EmptyString
  | String c s' => if is_space c then trim_start s' else s
  end.

(** Removes the trailing white space: a character is kept when something
    that is kept follows it, or when it is not white space. *)
Fixpoint trim_end (s : string) : string :=
  match s with
  | EmptyString => EmptyString
  | String c s' =>
      match trim_end s' with
      | EmptyString => if is_space c then EmptyString else String c EmptyString
      | r => String c r
      end
  end.

(** [s.trim()] *)
Definition trim (s : string) : string := trim_end (trim_start s).

(** [c.toUpperCase()] for a code unit whose upper case is one code unit
    below 256: the letters a to z and the Latin-1 letters U+00E0 to U+00FE,
    but for the division sign U+00F7, move down by 32; every other code unit
    stays (U+00DF is dealt with in [toUpperCase1]; U+00B5 and U+00FF, whose
    upper case is beyond 255, are outside the model). *)
Definition upper_char (c : ascii) : ascii :=
  let n := Ascii.nat_of_ascii c in
  if (((97 <=? n)%nat && (n <=? 122)%nat)
      || ((224 <=? n)%nat && (n <=? 246)%nat)
      || ((248 <=? n)%nat && (n <=? 254)%nat))%bool
  then Ascii.ascii_of_nat (n - 32) else c.

(** [s.charAt(0)]: the empty string when [s] is empty. *)
Definition charAt0 (s : string) : string :=
  match s with
  | EmptyString => EmptyString
  | String c _ => String c EmptyString
  end.

(** [s.toUpperCase()] for the string of at most one code unit that
    [charAt(0)] returns: the sharp s, U+00DF, becomes [SS]. *)
Definition toUpperCase1 (s : string) : string :=
  match s with
  | EmptyString => EmptyString
  | String c r =>
      if (Ascii.nat_of_ascii c =? 223)%nat
      then String "S"%char (String "S"%char r)
      else String (upper_char c) r
  end.

(** [s.replace(new RegExp(/p1|p2/, 'g'), '')] for two literal alternatives:
    the scan goes left to right, [p1] is tried before [p2] at each
    position, and a match is skipped. [skip] counts the code units of the
    current match that remain to be skipped. *)
Fixpoint remove_all_from (p1 p2 : string) (skip : nat) (s : string) : string :=
  match s with
  | EmptyString => EmptyString
  | String c s' =>
      match skip with
      | S k => remove_all_from p1 p2 k s'
      | O =>
          if starts_with p1 s then remove_all_from p1 p2 (String.length p1 - 1) s'
          else if starts_with p2 s then remove_all_from p1 p2 (String.length p2 - 1) s'
          else String c (remove_all_from p1 p2 O s')
      end
  end.

Definition remove_all (p1 p2 s : string) : string := remove_all_from p1 p2 O s.

Definition is_digit (c : ascii) : bool :=
  let n := Ascii.nat_of_ascii c in ((48 <=? n)%nat && (n <=? 57)%nat)%bool.

(** The longest run of decimal digits at the start of [s] (the greedy [\d+],
    empty when [s] does not start with a digit). *)
Fixpoint leading_digits (s : string) : string :=
  match s with
  | EmptyString => EmptyString
  | String c s' => if is_digit c then String c (leading_digits s') else EmptyString
  end.

(** [s.match(/lit(\d+)/)]: the capture group of the leftmost match, where
    [lit] is a literal. *)
Fixpoint match_literal_digits (lit : string) (s : string) : option string :=
  let here :=
    if starts_with lit s then
      match leading_digits (drop (String.length lit) s) with
      | EmptyString => None
      | ds => Some ds
      end
    else None in
  match here with
  | Some ds => Some ds
  | None =>
      match s with
      | EmptyString => None
      | String _ s' => match_literal_digits lit s'
      end
  end.

(** [s] is made of decimal digits only. *)
Fixpoint all_digits (s : string) : bool :=
  match s with
  | EmptyString => true
  | String c s' => is_digit c && all_digits s'
  end.

(** [s] does not start with a digit. *)
Definition no_leading_digit (s : string) : Prop := leading_digits s = EmptyString.

(** The match at the start of the string, as [match_literal_digits] tries
    it at each position. *)
Definition match_here (lit s : string) : option string :=
  if starts_with lit s then
    match leading_digits (drop (String.length lit) s) with
    | EmptyString => None
    | ds => Some ds
    end
  else None.

Definition digit_value (c : ascii) : nat := Ascii.nat_of_ascii c - 48.

Fixpoint parse_digits (acc : nat) (s : string) : nat :=
  match s with
  | EmptyString => acc
  | String c s' => parse_digits (10 * acc + digit_value c) s'
  end.

(** [parseInt(ds, 10)] on a non-empty string of decimal digits. *)
Definition parseInt10 (ds : string) : nat := parse_digits O ds.

End JsString.

(** ** The pin-data mixin *)

Module PinData.
Import JsString.

(** What the mixin shows to the user or reads from the store. *)
Inductive Effect :=
| ShowError (message title : string)   (* this.$showError(error, title) *)
| StoreGetter (name : string).         (* this.$store.getters[name] *)

(** Outcome of [JSON.parse(data)]: it returns a value, which the mixin
    drops, or throws a [SyntaxError] carrying a message. *)
Inductive ParseResult :=
| Parsed
| SyntaxError (message : string).

Definition is_show_error (e : Effect) : bool :=
  match e with ShowError _ _ => true | StoreGetter _ => false end.

Definition is_store_getter (e : Effect) : bool :=
  match e with StoreGetter _ => true | ShowError _ _ => false end.

Definition errors_shown (t : list Effect) : list Effect := List.filter is_show_error t.

(** The collaborators of the mixin: what it imports and what the component
    it is mixed into provides through [this]. *)
Record Context := {
  (* the built-in [JSON.parse], seen through its outcome *)
  JSON_parse : string -> ParseResult;
  (* [this.$locale.baseText] *)
  baseText : string -> string;
  (* [stringSizeInBytes] of [@/components/helpers] *)
  stringSizeInBytes : string -> Z;
  (* [MAX_WORKFLOW_PINNED_DATA_SIZE] of [@/constants] *)
  MAX_WORKFLOW_PINNED_DATA_SIZE : Z;
  (* [this.$store.getters['pinDataSize']] *)
  pinDataSize : Z
}.

(** The suffix [, line L] appended when the message of the error carries a
    position. *)
Definition lineSuffix (data ds : string) : string :=
  let position := parseInt10 ds in
  let lineBreaksUpToPosition := count_newlines (take position data) in
  ", line " +:+ pretty (lineBreaksUpToPosition + 1)%nat.

(** The message given to [$showError] in the [catch] branch, from the
    message of the error that [JSON.parse] threw. *)
Definition pinDataErrorMessage (data errorMessage : string) : string :=
  let message := trim (remove_all "JSON.parse:" "of the JSON data" errorMessage) in
  let positionMatch := match_literal_digits "at position " errorMessage in
  let m1 := toUpperCase1 (charAt0 message) +:+ drop 1 message in
  let m2 :=
    match positionMatch with
    | Some ds => m1 +:+ lineSuffix data ds
    | None => m1
    end in
  m2 +:+ ".".

Definition isValidPinDataJSON (this : Context) (data : string) : bool * list Effect :=
  match JSON_parse this data with
  | Parsed => (true, [])
  | SyntaxError errorMessage =>
      let title := baseText this "runData.editOutputInvalid" in
      (false, [ShowError (pinDataErrorMessage data errorMessage) title])
  end.

Definition tooLargeError (this : Context) : Effect :=
  ShowError (baseText this "ndv.pinData.error.tooLarge.description")
            (baseText this "ndv.pinData.error.tooLarge.title").

Definition isValidPinDataSize (this : Context) (data : string) : bool * list Effect :=
  if pinDataSize this + stringSizeInBytes this data >? MAX_WORKFLOW_PINNED_DATA_SIZE this
  then (false, [StoreGetter "pinDataSize"; tooLargeError this])
  else (true, [StoreGetter "pinDataSize"]).

(** [a && b] evaluates [b] only when [a] is true. *)
Definition isValidPinData (this : Context) (data : string) : bool * list Effect :=
  let '(json_ok, t1) := isValidPinDataJSON this data in
  if json_ok then
    let '(size_ok, t2) := isValidPinDataSize this data in (size_ok, t1 ++ t2)
  else (false, t1).

(** *** The computed properties

    [D] is the type of the pinned data of a node ([IDataObject]). *)

Record INodeUi := {
  node_ui_name : string
}.

(** The value of the computed property [pinData]: [a && b] is [a] when [a]
    is falsy, so it is [false] without a node and otherwise what the store
    getter returns. *)
Inductive PinDataValue (D : Type) :=
| PinFalse
| PinUndefined
| PinObject (d : D).
Arguments PinFalse {D}.
Arguments PinUndefined {D}.
Arguments PinObject {D} d.

(** [this.node] and [this.$store.getters['pinDataByNodeName']] *)
Record NodeContext (D : Type) := {
  node : option INodeUi;
  pinDataByNodeName : string -> option D
}.
Arguments node {D} _.
Arguments pinDataByNodeName {D} _ _.

Definition pinData {D : Type} (this : NodeContext D) : PinDataValue D :=
  match node this with
  | None => PinFalse
  | Some n =>
      match pinDataByNodeName this (node_ui_name n) with
      | Some d => PinObject d
      | None => PinUndefined
      end
  end.

(** [!!this.node && typeof this.pinData !== 'undefined'] *)
Definition hasPinData {D : Type} (this : NodeContext D) : bool :=
  match node this with
  | None => false
  | Some _ =>
      match pinData this with
      | PinUndefined => false
      | PinFalse | PinObject _ => true
      end
  end.

End PinData.

(** ** The line of a position, in the words of the specification

    [newlines_among_first n data] is the number of newline characters among
    the first [n] characters of [data]. It is written with the list
    functions of the library and not with the functions of the mixin, which
    are compared with it. *)

Module PinDataSpec.

Definition newlines_among_first (n : nat) (data : string) : nat :=
  List.length
    (List.filter (fun c => Ascii.eqb c "010"%char)
       (List.firstn n (String.list_ascii_of_string data))).

End PinDataSpec.

(** ** [snakeCase] of the [change-case] package

    The hooks take [snakeCase] as an import. This is its algorithm on ASCII
    input ([noCase] with the delimiter [_]), used to run the hooks on
    concrete keys: a separator goes between a lower-case letter or digit and
    an upper-case letter, and before the last capital of a run of capitals
    that a lower-case letter follows; every run of other characters is one
    separator; separators at both ends are dropped; letters are lowered. *)

Module ChangeCase.

Definition is_upper (c : ascii) : bool :=
  let n := Ascii.nat_of_ascii c in ((65 <=? n)%nat && (n <=? 90)%nat)%bool.

Definition is_lower (c : ascii) : bool :=
  let n := Ascii.nat_of_ascii c in ((97 <=? n)%nat && (n <=? 122)%nat)%bool.

Definition is_alnum (c : ascii) : bool :=
  is_upper c || is_lower c || JsString.is_digit c.

Definition lower_char (c : ascii) : ascii :=
  if is_upper c then Ascii.ascii_of_nat (Ascii.nat_of_ascii c + 32) else c.

(** The separator that [noCase] inserts, the code unit 0. *)
Definition sep : ascii := Ascii.zero.

(** [/([a-z0-9])([A-Z])/g] replaced by ["$1\0$2"] *)
Fixpoint split_lower_upper (s : string) : string :=
  match s with
  | EmptyString => EmptyString
  | String a r =>
      match r with
      | String b _ =>
          if ((is_lower a || JsString.is_digit a) && is_upper b)%bool
          then String a (String sep (split_lower_upper r))
          else String a (split_lower_upper r)
      | EmptyString => String a EmptyString
      end
  end.

(** [/([A-Z])([A-Z][a-z])/g] replaced by ["$1\0$2"] *)
Fixpoint split_upper_word (s : string) : string :=
  match s with
  | EmptyString => EmptyString
  | String a r =>
      match r with
      | String b (String c _) =>
          if (is_upper a && is_upper b && is_lower c)%bool
          then String a (String sep (split_upper_word r))
          else String a (split_upper_word r)
      | _ => String a (split_upper_word r)
      end
  end.

(** [/[^A-Z0-9]+/gi] replaced by ["\0"]; with [in_run] a run is under way
    and its separator is already written (or, at the start, dropped). *)
Fixpoint strip (in_run : bool) (s : string) : string :=
  match s with
  | EmptyString => EmptyString
  | String c r =>
      if is_alnum c then String c (strip false r)
      else if in_run then strip true r
      else String sep (strip true r)
  end.

(** Drops the separator at the end, lowers the letters and joins the words
    with [_]. *)
Fixpoint join_lower (s : string) : string :=
  match s with
  | EmptyString => EmptyString
  | String c r =>
      if Ascii.eqb c sep then
        match r with
        | EmptyString => EmptyString
        | _ => String "_"%char (join_lower r)
        end
      else String (lower_char c) (join_lower r)
  end.

Definition snakeCase (input : string) : string :=
  join_lower (strip true (split_upper_word (split_lower_upper input))).

End ChangeCase.

(** ** The telemetry hooks class *)

Module InternalHooks.

(** *** Data that flows through the hooks *)

(** [INoteGraphItem], [INodesGraph] and [INodesGraphResult] of
    [n8n-workflow]: the parts of the node graph that the hooks read. A
    JavaScript object used as a dictionary is an association list in
    [Object.keys] order. *)
Record INoteGraphItem := {
  overlapping : bool;
  note_height : Z;
  note_width : Z
}.

Record INodesGraph := {
  node_types : list string;
  node_connections : list (string * string);
  graph_nodes : list (string * string);
  notes : list (string * INoteGraphItem)
}.

Record INodesGraphResult := {
  nodeGraph : INodesGraph;
  nameIndices : list (string * string);
  webhookNodeName : option string
}.

(** Values handed to the analytics client. A node graph is kept in its
    typed form. *)
#[local] Unset Elimination Schemes.
Inductive JsValue :=
| JUndefined
| JNull
| JBool (b : bool)
| JNum (n : Z)
| JStr (s : string)
| JArr (items : list JsValue)
| JObj (fields : list (string * JsValue))
| JGraph (g : INodesGraph).
#[local] Set Elimination Schemes.

Definition JsObject := list (string * JsValue).

(** [o[k]] on a dictionary: [None] stands for [undefined]. *)
Fixpoint obj_lookup {A : Type} (o : list (string * A)) (k : string) : option A :=
  match o with
  | [] => None
  | (k', v) :: o' => if String.eqb k' k then Some v else obj_lookup o' k
  end.

(** [o[k] = v]: an existing key keeps its place, a new key goes last. *)
Fixpoint obj_set {A : Type} (o : list (string * A)) (k : string) (v : A) : list (string * A) :=
  match o with
  | [] => [(k, v)]
  | (k', v') :: o' => if String.eqb k' k then (k', v) :: o' else (k', v') :: obj_set o' k v
  end.

(** [Object.keys(o)] and [Object.values(o)] *)
Definition obj_keys {A : Type} (o : list (string * A)) : list string := List.map fst o.
Definition obj_values {A : Type} (o : list (string * A)) : list A := List.map snd o.

(** [{...target, ...src}]: the keys of [src] are assigned in order. *)
Definition obj_assign {A : Type} (target src : list (string * A)) : list (string * A) :=
  List.fold_left (fun acc kv => obj_set acc (fst kv) (snd kv)) src target.

(** An object literal: its properties are assigned in order. *)
Definition obj_literal {A : Type} (props : list (string * A)) : list (string * A) :=
  obj_assign [] props.

Definition js_string (o : option string) : JsValue :=
  match o with Some s => JStr s | None => JUndefined end.

Definition js_graph (o : option INodesGraph) : JsValue :=
  match o with Some g => JGraph g | None => JUndefined end.

(** Truthiness of an optional string: [undefined] and [''] are falsy. A
    truthy one is returned with its value. *)
Definition truthy_string (o : option string) : option string :=
  match o with
  | Some s => if String.eqb s EmptyString then None else Some s
  | None => None
  end.

(** Truthiness of a value. *)
Definition js_truthy (v : JsValue) : bool :=
  match v with
  | JUndefined | JNull => false
  | JBool b => b
  | JNum n => negb (n =? 0)
  | JStr s => negb (String.eqb s EmptyString)
  | JArr _ | JObj _ | JGraph _ => true
  end.

(** [o.k] as a value: a missing key reads as [undefined]. *)
Definition obj_get (o : list (string * JsValue)) (k : string) : JsValue :=
  match obj_lookup o k with Some v => v | None => JUndefined end.

(** A workflow id: [number | string]. *)
Inductive JsId :=
| IdNumber (n : Z)
| IdString (s : string).

Definition truthy_id (o : option JsId) : bool :=
  match o with
  | Some (IdNumber n) => negb (n =? 0)
  | Some (IdString s) => negb (String.eqb s EmptyString)
  | None => false
  end.

(** [id.toString()]. A number id is an integer of the safe range, below
    2^53 in magnitude, where [toString] gives the decimal numeral. *)
Definition id_toString (i : JsId) : string :=
  match i with
  | IdNumber n => pretty n
  | IdString s => s
  end.

Definition js_id (o : option JsId) : JsValue :=
  match o with
  | Some (IdNumber n) => JNum n
  | Some (IdString s) => JStr s
  | None => JUndefined
  end.

Record INode := {
  node_name : string;
  node_type : string
}.

(** [IWorkflowBase] / [IWorkflowDb]: [tags] is optional. *)
Record IWorkflowBase := {
  wf_id : option JsId;
  wf_name : string;
  wf_nodes : list INode;
  wf_tags : option (list string)
}.

(** [IRun] and what hangs below it. *)
Record ExecutionError := {
  error_message_of : string;
  error_node : option INode
}.

Record INodeExecutionData := {
  json : JsObject
}.

(** [ITaskDataConnections]: per connection type, an array whose items are
    arrays of items or [null]. *)
Definition ITaskDataConnections := list (string * list (option (list INodeExecutionData))).

Record ITaskData := {
  task_data : option ITaskDataConnections
}.

Record IRunResultData := {
  result_error : option ExecutionError;
  result_runData : list (string * list ITaskData);
  lastNodeExecuted : option string
}.

Record IStartData := {
  destinationNode : option string
}.

Record IRunExecutionData := {
  startData : option IStartData;
  resultData : IRunResultData
}.

Record IRun := {
  run_data : IRunExecutionData;
  finished : option bool;
  mode : string
}.

(** [IExecutionTrackProperties] *)
Record IExecutionTrackProperties := {
  workflow_id : string;
  is_manual : bool;
  version_cli : string;
  success : bool;
  user_id : option string;
  execution_mode : option string;
  error_message : option string;
  error_node_type : option string;
  node_graph : option INodesGraph;
  node_graph_string : option string;
  error_node_id : option string
}.

Definition set_user_id (v : option string) (p : IExecutionTrackProperties) :=
  let 'Build_IExecutionTrackProperties a b c d _ f g h i j k := p in
  Build_IExecutionTrackProperties a b c d v f g h i j k.
Definition set_execution_mode (v : string) (p : IExecutionTrackProperties) :=
  let 'Build_IExecutionTrackProperties a b c d e _ g h i j k := p in
  Build_IExecutionTrackProperties a b c d e (Some v) g h i j k.
Definition set_success (v : bool) (p : IExecutionTrackProperties) :=
  let 'Build_IExecutionTrackProperties a b c _ e f g h i j k := p in
  Build_IExecutionTrackProperties a b c v e f g h i j k.
Definition set_is_manual (v : bool) (p : IExecutionTrackProperties) :=
  let 'Build_IExecutionTrackProperties a _ c d e f g h i j k := p in
  Build_IExecutionTrackProperties a v c d e f g h i j k.
Definition set_error_message (v : option string) (p : IExecutionTrackProperties) :=
  let 'Build_IExecutionTrackProperties a b c d e f _ h i j k := p in
  Build_IExecutionTrackProperties a b c d e f v h i j k.
Definition set_error_node_type (v : option string) (p : IExecutionTrackProperties) :=
  let 'Build_IExecutionTrackProperties a b c d e f g _ i j k := p in
  Build_IExecutionTrackProperties a b c d e f g v i j k.
Definition set_node_graph (v : INodesGraph) (p : IExecutionTrackProperties) :=
  let 'Build_IExecutionTrackProperties a b c d e f g h _ j k := p in
  Build_IExecutionTrackProperties a b c d e f g h (Some v) j k.
Definition set_node_graph_string (v : string) (p : IExecutionTrackProperties) :=
  let 'Build_IExecutionTrackProperties a b c d e f g h i _ k := p in
  Build_IExecutionTrackProperties a b c d e f g h i (Some v) k.
Definition set_error_node_id (v : option string) (p : IExecutionTrackProperties) :=
  let 'Build_IExecutionTrackProperties a b c d e f g h i j _ := p in
  Build_IExecutionTrackProperties a b c d e f g h i j v.

(** [IDiagnosticInfo] *)
Record IDiagnosticInfo := {
  di_versionCli : JsValue;
  di_databaseType : JsValue;
  di_notificationsEnabled : JsValue;
  di_disableProductionWebhooksOnMainProcess : JsValue;
  di_basicAuthActive : JsValue;
  di_systemInfo : JsValue;
  di_executionVariables : JsValue;
  di_deploymentType : JsValue;
  di_binaryDataMode : JsValue;
  di_n8n_multi_user_allowed : JsValue;
  di_smtp_set_up : JsValue
}.

(** *** Promises

    A promise is seen through the moment it settles, in milliseconds after
    the hook was called, and the way it settles. No hook awaits anything:
    a hook body runs to its end in the tick of the call. *)

Definition JsError := string.

Inductive Outcome :=
| Fulfilled
| Rejected (reason : JsError).

Inductive Promise :=
| Pending                                   (* never settles *)
| Settled (at_ms : nat) (outcome : Outcome).

(** [Promise.resolve()] *)
Definition Promise_resolve : Promise := Settled 0 Fulfilled.

(** [Promise.reject(e)]: what an [async] function returns when its body
    throws [e]. *)
Definition Promise_reject (e : JsError) : Promise := Settled 0 (Rejected e).

(** The earliest rejection of a list of promises, the first one of the list
    among those of one moment. *)
Fixpoint first_rejection (ps : list Promise) : option (nat * JsError) :=
  match ps with
  | [] => None
  | Settled t (Rejected e) :: ps' =>
      match first_rejection ps' with
      | Some (t', e') => if (t' <? t)%nat then Some (t', e') else Some (t, e)
      | None => Some (t, e)
      end
  | _ :: ps' => first_rejection ps'
  end.

(** The moment at which all the promises are fulfilled, when they all are. *)
Fixpoint all_fulfilled_at (ps : list Promise) : option nat :=
  match ps with
  | [] => Some O
  | Settled t Fulfilled :: ps' =>
      match all_fulfilled_at ps' with
      | Some t' => Some (Nat.max t t')
      | None => None
      end
  | _ :: _ => None
  end.

(** [Promise.all(ps)]: rejects as soon as one promise rejects, fulfils when
    all are fulfilled. *)
Definition Promise_all (ps : list Promise) : Promise :=
  match first_rejection ps with
  | Some (t, e) => Settled t (Rejected e)
  | None =>
      match all_fulfilled_at ps with
      | Some t => Settled t Fulfilled
      | None => Pending
      end
  end.

(** [Promise.race(ps)]: settles like the promise that settles first, the
    first one of the list among those of one moment. *)
Fixpoint Promise_race (ps : list Promise) : Promise :=
  match ps with
  | [] => Pending
  | p :: ps' =>
      match p, Promise_race ps' with
      | Pending, r => r
      | Settled t o, Settled t' o' => if (t' <? t)%nat then Settled t' o' else Settled t o
      | Settled t o, Pending => Settled t o
      end
  end.

(** [p.then(() => {})]: the value is dropped, a rejection goes through. *)
Definition Promise_then_void (p : Promise) : Promise :=
  match p with
  | Settled t Fulfilled => Settled t Fulfilled
  | Settled t (Rejected e) => Settled t (Rejected e)
  | Pending => Pending
  end.

Definition settled_at (p : Promise) : option nat :=
  match p with Settled t _ => Some t | Pending => None end.

Definition is_rejected (p : Promise) : bool :=
  match p with Settled _ (Rejected _) => true | _ => false end.

Definition is_fulfilled (p : Promise) : bool :=
  match p with Settled _ Fulfilled => true | _ => false end.


(** *** The instance, its collaborators and the effects of a call *)

(** [INodeTypes]: a reference to the node-types registry, only handed on. *)
Inductive INodeTypes :=
| NodeTypesRef (ref : nat).

(** What a call to the analytics client or to a global leaves behind. *)
Inductive Event :=
| EvIdentify (traits : JsObject)                                 (* telemetry.identify *)
| EvTrack (eventName : string) (properties : JsObject)           (* telemetry.track *)
| EvTrackWorkflowExecution (properties : IExecutionTrackProperties)
| EvTrackN8nStop                                                 (* telemetry.trackN8nStop *)
| EvPersistBinaryData (executionId : string)
      (* BinaryDataManager.getInstance().persistBinaryDataForExecutionId *)
| EvConsoleLog (v : JsValue)                                     (* console.log *)
| EvSetTimeout (ms : nat).                                       (* setTimeout *)

(** The [Telemetry] object: the promise each of its methods returns. *)
Record Telemetry := {
  identify : JsObject -> Promise;
  track : string -> JsObject -> Promise;
  trackWorkflowExecution : IExecutionTrackProperties -> Promise;
  trackN8nStop : Promise
}.

(** The fields of an [InternalHooksClass] instance. *)
Record InternalHooksClass := {
  telemetry : Telemetry;
  versionCli : string;
  nodeTypes : INodeTypes
}.

(** [constructor(private telemetry, versionCli, nodeTypes)] *)
Definition constructor (telemetry : Telemetry) (versionCli : string) (nodeTypes : INodeTypes)
  : InternalHooksClass :=
  {| telemetry := telemetry; versionCli := versionCli; nodeTypes := nodeTypes |}.

(** What the class imports: [TelemetryHelpers] of [n8n-workflow],
    [BinaryDataManager] of [n8n-core], [snakeCase] of [change-case] and the
    built-in [JSON.stringify]. The helpers are total functions; a call to
    [persistBinaryDataForExecutionId], like a call to the analytics client,
    returns a promise and does not throw. *)
Record Imports := {
  generateNodesGraph : IWorkflowBase -> INodeTypes -> INodesGraphResult;
  getNodeTypeForName : IWorkflowBase -> string -> option INode;
  persistBinaryDataForExecutionId : string -> Promise;
  snakeCase : string -> string;
  JSON_stringify : INodesGraph -> string
}.

(** The state a hook runs in: the instance and the calls made so far. *)
Record World := {
  this : InternalHooksClass;
  trace : list Event
}.

(** How a method body ends. *)
Inductive Completion (A : Type) :=
| Normal (a : A)
| Throw (e : JsError).
Arguments Normal {A} a.
Arguments Throw {A} e.

(** A computation of a method body. *)
Definition M (A : Type) : Type := World -> Completion A * World.

Definition ret {A : Type} (a : A) : M A := fun w => (Normal a, w).

Definition bind {A B : Type} (m : M A) (k : A -> M B) : M B :=
  fun w =>
    match m w with
    | (Normal a, w') => k a w'
    | (Throw e, w') => (Throw e, w')
    end.

Definition throw {A : Type} (e : JsError) : M A := fun w => (Throw e, w).

Definition emit (ev : Event) : M unit :=
  fun w => (Normal tt, {| this := this w; trace := trace w ++ [ev] |}).

Definition get_this : M InternalHooksClass := fun w => (Normal (this w), w).

Declare Scope hook_scope.
Delimit Scope hook_scope with hook.
Notation "'let*' x ':=' m 'in' k" := (bind m (fun x => k))
  (at level 10, x name, m at level 100, k at level 200) : hook_scope.
Notation "'let*' ' p ':=' m 'in' k" := (bind m (fun x => match x with p => k end))
  (at level 10, p strict pattern, m at level 100, k at level 200) : hook_scope.
Notation "m ';;' k" := (bind m (fun _ => k))
  (at level 100, k at level 200, right associativity) : hook_scope.
Local Open Scope hook_scope.

(** [async]: the promise an async method returns. A body that throws gives
    a rejected promise; a body that returns a promise gives that promise. *)
Definition async (body : M Promise) : World -> Promise * World :=
  fun w =>
    match body w with
    | (Normal p, w') => (p, w')
    | (Throw e, w') => (Promise_reject e, w')
    end.

(** Calls to the collaborators. *)
Definition telemetry_identify (traits : JsObject) : M Promise :=
  let* self := get_this in
  emit (EvIdentify traits);;
  ret (identify (telemetry self) traits).

Definition telemetry_track (eventName : string) (properties : JsObject) : M Promise :=
  let* self := get_this in
  emit (EvTrack eventName properties);;
  ret (track (telemetry self) eventName properties).

Definition telemetry_trackWorkflowExecution (properties : IExecutionTrackProperties) : M Promise :=
  let* self := get_this in
  emit (EvTrackWorkflowExecution properties);;
  ret (trackWorkflowExecution (telemetry self) properties).

Definition telemetry_trackN8nStop : M Promise :=
  let* self := get_this in
  emit EvTrackN8nStop;;
  ret (trackN8nStop (telemetry self)).

Definition persistBinaryData (env : Imports) (executionId : string) : M Promise :=
  emit (EvPersistBinaryData executionId);;
  ret (persistBinaryDataForExecutionId env executionId).

Definition console_log (v : JsValue) : M unit := emit (EvConsoleLog v).

(** [new Promise((resolve) => { setTimeout(() => { resolve(); }, ms); })]:
    the timer is taken to fire [ms] milliseconds after the call. *)
Definition timeout_promise (ms : nat) : M Promise :=
  emit (EvSetTimeout ms);;
  ret (Settled ms Fulfilled).


(** *** The hooks *)

Definition diagnosticInfoObject (diagnosticInfo : IDiagnosticInfo) : JsObject :=
  obj_literal
    [ ("version_cli", di_versionCli diagnosticInfo);
      ("db_type", di_databaseType diagnosticInfo);
      ("n8n_version_notifications_enabled", di_notificationsEnabled diagnosticInfo);
      ("n8n_disable_production_main_process",
        di_disableProductionWebhooksOnMainProcess diagnosticInfo);
      ("n8n_basic_auth_active", di_basicAuthActive diagnosticInfo);
      ("system_info", di_systemInfo diagnosticInfo);
      ("execution_variables", di_executionVariables diagnosticInfo);
      ("n8n_deployment_type", di_deploymentType diagnosticInfo);
      ("n8n_binary_data_mode", di_binaryDataMode diagnosticInfo);
      ("n8n_multi_user_allowed", di_n8n_multi_user_allowed diagnosticInfo);
      ("smtp_set_up", di_smtp_set_up diagnosticInfo) ].

Definition onServerStarted (diagnosticInfo : IDiagnosticInfo) (earliestWorkflowCreatedAt : JsValue)
  : World -> Promise * World :=
  async (
    let info := diagnosticInfoObject diagnosticInfo in
    let* p1 := telemetry_identify info in
    let* p2 := telemetry_track "Instance started"
                 (obj_set (obj_assign [] info) "earliest_workflow_created"
                    earliestWorkflowCreatedAt) in
    ret (Promise_all [p1; p2])).

(** The object that [onPersonalizationSurveySubmitted] builds: [user_id]
    first, then one assignment per key of [answers], in [Object.keys]
    order. *)
Definition surveyAssign (env : Imports) (answers : list (string * string))
    (data : JsObject) (camelCaseKey : string) : JsObject :=
  obj_set data (snakeCase env camelCaseKey) (js_string (obj_lookup answers camelCaseKey)).

Definition personalizationSurveyData (env : Imports) (userId : string)
    (answers : list (string * string)) : JsObject :=
  let camelCaseKeys := obj_keys answers in
  List.fold_left (surveyAssign env answers) camelCaseKeys [("user_id", JStr userId)].

Definition onPersonalizationSurveySubmitted (env : Imports) (userId : string)
    (answers : list (string * string)) : World -> Promise * World :=
  async (
    telemetry_track "User responded to personalization questions"
      (personalizationSurveyData env userId answers)).

Definition onWorkflowCreated (env : Imports) (userId : string) (workflow : IWorkflowBase)
    (publicApi : bool) : World -> Promise * World :=
  async (
    let* self := get_this in
    let nodeGraph := nodeGraph (generateNodesGraph env workflow (nodeTypes self)) in
    telemetry_track "User created workflow"
      (obj_literal
         [ ("user_id", JStr userId);
           ("workflow_id", js_id (wf_id workflow));
           ("node_graph", JGraph nodeGraph);
           ("node_graph_string", JStr (JSON_stringify env nodeGraph));
           ("public_api", JBool publicApi) ])).

Definition onWorkflowDeleted (userId workflowId : string) (publicApi : bool)
  : World -> Promise * World :=
  async (
    telemetry_track "User deleted workflow"
      (obj_literal
         [ ("user_id", JStr userId);
           ("workflow_id", JStr workflowId);
           ("public_api", JBool publicApi) ])).

(** [workflow.tags?.length ?? 0] *)
Definition num_tags_of (workflow : IWorkflowBase) : Z :=
  match wf_tags workflow with
  | Some tags => Z.of_nat (List.length tags)
  | None => 0
  end.

Definition onWorkflowSaved (env : Imports) (userId : string) (workflow : IWorkflowBase)
    (publicApi : bool) : World -> Promise * World :=
  async (
    let* self := get_this in
    let nodeGraph := nodeGraph (generateNodesGraph env workflow (nodeTypes self)) in
    let notesCount := List.length (obj_keys (notes nodeGraph)) in
    let overlappingCount :=
      List.length (List.filter (fun note => overlapping note) (obj_values (notes nodeGraph))) in
    telemetry_track "User saved workflow"
      (obj_literal
         [ ("user_id", JStr userId);
           ("workflow_id", js_id (wf_id workflow));
           ("node_graph", JGraph nodeGraph);
           ("node_graph_string", JStr (JSON_stringify env nodeGraph));
           ("notes_count_overlapping", JNum (Z.of_nat overlappingCount));
           ("notes_count_non_overlapping",
             JNum (Z.of_nat notesCount - Z.of_nat overlappingCount));
           ("version_cli", JStr (versionCli self));
           ("num_tags", JNum (num_tags_of workflow));
           ("public_api", JBool publicApi) ])).


(** [runData.data.resultData.runData[webhookNodeName][0].data?.main[0]]:
    reading a property of [undefined] throws a [TypeError]; [?.] gives
    [undefined] for the rest of the chain when [data] is missing. The
    result is [None] for [undefined] and [null]. *)
Definition webhookMainData (runData : IRun) (webhookNodeName : string)
  : M (option (list INodeExecutionData)) :=
  match obj_lookup (result_runData (resultData (run_data runData))) webhookNodeName with
  | None => throw "TypeError: Cannot read properties of undefined (reading '0')"
  | Some [] => throw "TypeError: Cannot read properties of undefined (reading 'data')"
  | Some (task :: _) =>
      match task_data task with
      | None => ret None
      | Some connections =>
          match obj_lookup connections "main" with
          | None => throw "TypeError: Cannot read properties of undefined (reading '0')"
          | Some [] => ret None
          | Some (md :: _) => ret md
          end
      end
  end.

(** Lines 206 to 217: the inspection of the webhook node's first item. *)
Definition logWebhookHeaders (runData : IRun) (nodeGraphResult : INodesGraphResult) : M unit :=
  match truthy_string (webhookNodeName nodeGraphResult) with
  | Some name =>
      console_log (JStr "B");;
      let* md := webhookMainData runData name in
      match md with
      | Some items =>
          console_log (JStr "C");;
          match items with
          | [] => throw "TypeError: Cannot read properties of undefined (reading 'json')"
          | item :: _ => console_log (obj_get (json item) "headers")
          end
      | None => ret tt
      end
  | None => ret tt
  end.

(** The properties as they are at line 129. *)
Definition initialProperties (self : InternalHooksClass) (id : JsId) : IExecutionTrackProperties :=
  {| workflow_id := id_toString id;
     is_manual := false;
     version_cli := versionCli self;
     success := false;
     user_id := None;
     execution_mode := None;
     error_message := None;
     error_node_type := None;
     node_graph := None;
     node_graph_string := None;
     error_node_id := None |}.

(** Lines 142 to 168: the error branch. It returns the properties and the
    value of [nodeGraphResult]. *)
Definition errorProperties (env : Imports) (self : InternalHooksClass) (workflow : IWorkflowBase)
    (runData : IRun) (properties : IExecutionTrackProperties)
  : IExecutionTrackProperties * option INodesGraphResult :=
  match negb (success properties), result_error (resultData (run_data runData)) with
  | true, Some error =>
      let properties := set_error_message (Some (error_message_of error)) properties in
      let errorNodeName := option_map node_name (error_node error) in
      let properties := set_error_node_type (option_map node_type (error_node error)) properties in
      let '(properties, errorNodeName) :=
        match truthy_string (lastNodeExecuted (resultData (run_data runData))) with
        | Some lastNodeExecuted =>
            match getNodeTypeForName env workflow lastNodeExecuted with
            | Some lastNode =>
                (set_error_node_type (Some (node_type lastNode)) properties,
                 Some (node_name lastNode))
            | None => (properties, errorNodeName)
            end
        | None => (properties, errorNodeName)
        end in
      if is_manual properties then
        let nodeGraphResult := generateNodesGraph env workflow (nodeTypes self) in
        let properties := set_node_graph (nodeGraph nodeGraphResult) properties in
        let properties :=
          set_node_graph_string (JSON_stringify env (nodeGraph nodeGraphResult)) properties in
        let properties :=
          match truthy_string errorNodeName with
          | Some errorNodeName =>
              set_error_node_id (obj_lookup (nameIndices nodeGraphResult) errorNodeName) properties
          | None => properties
          end in
        (properties, Some nodeGraphResult)
      else (properties, None)
  | _, _ => (properties, None)
  end.

(** Lines 136 to 168: what a run adds to the properties, with the value of
    [nodeGraphResult] at line 169. *)
Definition runProperties (env : Imports) (self : InternalHooksClass) (workflow : IWorkflowBase)
    (runData : IRun) (properties : IExecutionTrackProperties)
  : IExecutionTrackProperties * option INodesGraphResult :=
  let properties := set_execution_mode (mode runData) properties in
  let properties :=
    set_success (match finished runData with Some b => b | None => false end) properties in
  let properties := set_is_manual (String.eqb (mode runData) "manual") properties in
  errorProperties env self workflow runData properties.

(** Lines 171 to 222: the event of a manual execution. It returns the
    array [promises]. *)
Definition manualExecution (env : Imports) (self : InternalHooksClass) (workflow : IWorkflowBase)
    (runData : IRun) (properties : IExecutionTrackProperties)
    (nodeGraphResult : option INodesGraphResult) (promises : list Promise)
  : M (list Promise) :=
  let nodeGraphResult :=
    match nodeGraphResult with
    | Some r => r
    | None => generateNodesGraph env workflow (nodeTypes self)
    end in
  let manualExecEventProperties :=
    obj_literal
      [ ("workflow_id", js_id (wf_id workflow));
        ("status", JStr (if success properties then "success" else "failed"));
        ("error_message", js_string (error_message properties));
        ("error_node_type", js_string (error_node_type properties));
        ("node_graph", js_graph (node_graph properties));
        ("node_graph_string", js_string (node_graph_string properties));
        ("error_node_id", js_string (error_node_id properties)) ] in
  let '(manualExecEventProperties, nodeGraphResult) :=
    if negb (js_truthy (obj_get manualExecEventProperties "node_graph")) then
      let nodeGraphResult := generateNodesGraph env workflow (nodeTypes self) in
      let m := obj_set manualExecEventProperties "node_graph"
                 (JGraph (nodeGraph nodeGraphResult)) in
      let m := obj_set m "node_graph_string"
                 (JStr (JSON_stringify env (nodeGraph nodeGraphResult))) in
      (m, nodeGraphResult)
    else (manualExecEventProperties, nodeGraphResult) in
  match truthy_string
          (match startData (run_data runData) with
           | Some sd => destinationNode sd
           | None => None
           end) with
  | Some destinationNode =>
      let* p :=
        telemetry_track "Manual node exec finished"
          (obj_set
             (obj_set (obj_assign [] manualExecEventProperties) "node_type"
                (js_string
                   (option_map node_type (getNodeTypeForName env workflow destinationNode))))
             "node_id"
             (js_string (obj_lookup (nameIndices nodeGraphResult) destinationNode))) in
      ret (promises ++ [p])
  | None =>
      console_log (JStr "A");;
      logWebhookHeaders runData nodeGraphResult;;
      let* p := telemetry_track "Manual workflow exec finished" manualExecEventProperties in
      ret (promises ++ [p])
  end.

(** The properties that [onWorkflowPostExecute] assembles for a workflow
    with the truthy id [id]: they are complete at line 168. *)
Definition executionProperties (env : Imports) (self : InternalHooksClass)
    (workflow : IWorkflowBase) (id : JsId) (runData : option IRun) (userId : option string)
  : IExecutionTrackProperties * option INodesGraphResult :=
  let properties := initialProperties self id in
  let properties :=
    match truthy_string userId with
    | Some _ => set_user_id userId properties
    | None => properties
    end in
  match runData with
  | Some runData => runProperties env self workflow runData properties
  | None => (properties, None)
  end.

Definition onWorkflowPostExecute (env : Imports) (executionId : string)
    (workflow : IWorkflowBase) (runData : option IRun) (userId : option string)
  : World -> Promise * World :=
  async (
    let promises := [Promise_resolve] in
    match wf_id workflow with
    | None => ret Promise_resolve
    | Some id =>
        if negb (truthy_id (Some id)) then ret Promise_resolve else
        let* self := get_this in
        let '(properties, nodeGraphResult) :=
          executionProperties env self workflow id runData userId in
        let* promises :=
          match runData with
          | Some runData =>
              if is_manual properties
              then manualExecution env self workflow runData properties nodeGraphResult promises
              else ret promises
          | None => ret promises
          end in
        let* p1 := persistBinaryData env executionId in
        let* p2 := telemetry_trackWorkflowExecution properties in
        ret (Promise_then_void (Promise_all (promises ++ [p1; p2])))
    end).

Definition onN8nStop : World -> Promise * World :=
  async (
    let* timeoutPromise := timeout_promise 3000 in
    let* stopPromise := telemetry_trackN8nStop in
    ret (Promise_race [timeoutPromise; stopPromise])).

Definition onUserDeletion (userId : string) (userDeletionData : JsObject) (publicApi : bool)
  : World -> Promise * World :=
  async (
    telemetry_track "User deleted user"
      (obj_set (obj_set (obj_assign [] userDeletionData) "user_id" (JStr userId))
         "public_api" (JBool publicApi))).

(** The hooks that hand their argument to [telemetry.track] as it is. *)
Definition onUserInvite (userInviteData : JsObject) : World -> Promise * World :=
  async (telemetry_track "User invited new user" userInviteData).

Definition onUserReinvite (userReinviteData : JsObject) : World -> Promise * World :=
  async (telemetry_track "User resent new user invite email" userReinviteData).

Definition onUserRetrievedUser (userRetrievedData : JsObject) : World -> Promise * World :=
  async (telemetry_track "User retrieved user" userRetrievedData).

Definition onUserRetrievedAllUsers (userRetrievedData : JsObject) : World -> Promise * World :=
  async (telemetry_track "User retrieved all users" userRetrievedData).

Definition onUserRetrievedExecution (userRetrievedData : JsObject) : World -> Promise * World :=
  async (telemetry_track "User retrieved execution" userRetrievedData).

Definition onUserRetrievedAllExecutions (userRetrievedData : JsObject) : World -> Promise * World :=
  async (telemetry_track "User retrieved all executions" userRetrievedData).

Definition onUserRetrievedWorkflow (userRetrievedData : JsObject) : World -> Promise * World :=
  async (telemetry_track "User retrieved workflow" userRetrievedData).

Definition onUserRetrievedAllWorkflows (userRetrievedData : JsObject) : World -> Promise * World :=
  async (telemetry_track "User retrieved all workflows" userRetrievedData).

Definition onUserUpdate (userUpdateData : JsObject) : World -> Promise * World :=
  async (telemetry_track "User changed personal settings" userUpdateData).

Definition onUserInviteEmailClick (userInviteClickData : JsObject) : World -> Promise * World :=
  async (telemetry_track "User clicked invite link from email" userInviteClickData).

Definition onUserPasswordResetEmailClick (userPasswordResetData : JsObject) : World -> Promise * World :=
  async (telemetry_track "User clicked password reset link from email" userPasswordResetData).

Definition onUserTransactionalEmail (userTransactionalEmailData : JsObject) : World -> Promise * World :=
  async (telemetry_track "Instance sent transacptional email to user" userTransactionalEmailData).

Definition onUserInvokedApi (userInvokedApiData : JsObject) : World -> Promise * World :=
  async (telemetry_track "User invoked API" userInvokedApiData).

Definition onApiKeyDeleted (apiKeyDeletedData : JsObject) : World -> Promise * World :=
  async (telemetry_track "API key deleted" apiKeyDeletedData).

Definition onApiKeyCreated (apiKeyCreatedData : JsObject) : World -> Promise * World :=
  async (telemetry_track "API key created" apiKeyCreatedData).

Definition onUserPasswordResetRequestClick (userPasswordResetData : JsObject) : World -> Promise * World :=
  async (telemetry_track "User requested password reset while logged out" userPasswordResetData).

Definition onInstanceOwnerSetup (instanceOwnerSetupData : JsObject) : World -> Promise * World :=
  async (telemetry_track "Owner finished instance setup" instanceOwnerSetupData).

Definition onUserSignup (userSignupData : JsObject) : World -> Promise * World :=
  async (telemetry_track "User signed up" userSignupData).

Definition onEmailFailed (failedEmailData : JsObject) : World -> Promise * World :=
  async (telemetry_track "Instance failed to send transactional email to user" failedEmailData).

(** A call to one of the methods of the class, with its arguments. *)
Inductive HookCall :=
| OnServerStarted (diagnosticInfo : IDiagnosticInfo) (earliestWorkflowCreatedAt : JsValue)
| OnPersonalizationSurveySubmitted (userId : string) (answers : list (string * string))
| OnWorkflowCreated (userId : string) (workflow : IWorkflowBase) (publicApi : bool)
| OnWorkflowDeleted (userId workflowId : string) (publicApi : bool)
| OnWorkflowSaved (userId : string) (workflow : IWorkflowBase) (publicApi : bool)
| OnWorkflowPostExecute (executionId : string) (workflow : IWorkflowBase)
    (runData : option IRun) (userId : option string)
| OnN8nStop
| OnUserDeletion (userId : string) (userDeletionData : JsObject) (publicApi : bool)
| OnUserInvite (userInviteData : JsObject)
| OnUserReinvite (userReinviteData : JsObject)
| OnUserRetrievedUser (userRetrievedData : JsObject)
| OnUserRetrievedAllUsers (userRetrievedData : JsObject)
| OnUserRetrievedExecution (userRetrievedData : JsObject)
| OnUserRetrievedAllExecutions (userRetrievedData : JsObject)
| OnUserRetrievedWorkflow (userRetrievedData : JsObject)
| OnUserRetrievedAllWorkflows (userRetrievedData : JsObject)
| OnUserUpdate (userUpdateData : JsObject)
| OnUserInviteEmailClick (userInviteClickData : JsObject)
| OnUserPasswordResetEmailClick (userPasswordResetData : JsObject)
| OnUserTransactionalEmail (userTransactionalEmailData : JsObject)
| OnUserInvokedApi (userInvokedApiData : JsObject)
| OnApiKeyDeleted (apiKeyDeletedData : JsObject)
| OnApiKeyCreated (apiKeyCreatedData : JsObject)
| OnUserPasswordResetRequestClick (userPasswordResetData : JsObject)
| OnInstanceOwnerSetup (instanceOwnerSetupData : JsObject)
| OnUserSignup (userSignupData : JsObject)
| OnEmailFailed (failedEmailData : JsObject).

Definition invoke (env : Imports) (call : HookCall) : World -> Promise * World :=
  match call with
  | OnServerStarted d e => onServerStarted d e
  | OnPersonalizationSurveySubmitted u a => onPersonalizationSurveySubmitted env u a
  | OnWorkflowCreated u wf p => onWorkflowCreated env u wf p
  | OnWorkflowDeleted u i p => onWorkflowDeleted u i p
  | OnWorkflowSaved u wf p => onWorkflowSaved env u wf p
  | OnWorkflowPostExecute x wf r u => onWorkflowPostExecute env x wf r u
  | OnN8nStop => onN8nStop
  | OnUserDeletion u d p => onUserDeletion u d p
  | OnUserInvite d => onUserInvite d
  | OnUserReinvite d => onUserReinvite d
  | OnUserRetrievedUser d => onUserRetrievedUser d
  | OnUserRetrievedAllUsers d => onUserRetrievedAllUsers d
  | OnUserRetrievedExecution d => onUserRetrievedExecution d
  | OnUserRetrievedAllExecutions d => onUserRetrievedAllExecutions d
  | OnUserRetrievedWorkflow d => onUserRetrievedWorkflow d
  | OnUserRetrievedAllWorkflows d => onUserRetrievedAllWorkflows d
  | OnUserUpdate d => onUserUpdate d
  | OnUserInviteEmailClick d => onUserInviteEmailClick d
  | OnUserPasswordResetEmailClick d => onUserPasswordResetEmailClick d
  | OnUserTransactionalEmail d => onUserTransactionalEmail d
  | OnUserInvokedApi d => onUserInvokedApi d
  | OnApiKeyDeleted d => onApiKeyDeleted d
  | OnApiKeyCreated d => onApiKeyCreated d
  | OnUserPasswordResetRequestClick d => onUserPasswordResetRequestClick d
  | OnInstanceOwnerSetup d => onInstanceOwnerSetup d
  | OnUserSignup d => onUserSignup d
  | OnEmailFailed d => onEmailFailed d
  end.

(** A fresh instance, before any call. *)
Definition initialWorld (telemetry : Telemetry) (versionCli : string) (nodeTypes : INodeTypes)
  : World :=
  {| this := constructor telemetry versionCli nodeTypes; trace := [] |}.

(** The calls a method made: what it added to the trace. *)
Definition calls_of (r : Promise * World) (w : World) : list Event :=
  List.skipn (List.length (trace w)) (trace (snd r)).

(** A sequence of calls on one instance. *)
Definition run_calls (env : Imports) (calls : list HookCall) (w : World) : World :=
  List.fold_left (fun w call => snd (invoke env call w)) calls w.

(** The promise that a collaborator returned for a call of the trace. *)
Definition promise_of_call (env : Imports) (self : InternalHooksClass) (ev : Event)
  : option Promise :=
  match ev with
  | EvIdentify traits => Some (identify (telemetry self) traits)
  | EvTrack eventName properties => Some (track (telemetry self) eventName properties)
  | EvTrackWorkflowExecution properties =>
      Some (trackWorkflowExecution (telemetry self) properties)
  | EvTrackN8nStop => Some (trackN8nStop (telemetry self))
  | EvPersistBinaryData executionId => Some (persistBinaryDataForExecutionId env executionId)
  | EvConsoleLog _ | EvSetTimeout _ => None
  end.

Definition is_setTimeout (ev : Event) : bool :=
  match ev with EvSetTimeout _ => true | _ => false end.

Definition is_trackWorkflowExecution (ev : Event) : bool :=
  match ev with EvTrackWorkflowExecution _ => true | _ => false end.

(** *** The footprint of a computation

    [footprint P m]: from every state, [m] leaves the instance as it is and
    adds to the trace only calls that satisfy [P]. *)
Definition extends_by (P : Event -> Prop) (w w' : World) : Prop :=
  this w' = this w /\ exists evs, trace w' = trace w ++ evs /\ Forall P evs.

Definition footprint {A : Type} (P : Event -> Prop) (m : M A) : Prop :=
  forall w, extends_by P w (snd (m w)).

Definition hook_footprint (P : Event -> Prop) (h : World -> Promise * World) : Prop :=
  forall w, extends_by P w (snd (h w)).

(** How a computation that collects promises ends: the instance is kept,
    the new calls are [evs], none of them a [trackWorkflowExecution], and
    on a normal end the promises collected are those the calls returned. *)
Definition collects (env : Imports) (promises : list Promise) (w : World)
    (r : Completion (list Promise) * World) (evs : list Event) : Prop :=
  this (snd r) = this w /\
  trace (snd r) = trace w ++ evs /\
  Forall (fun ev => is_trackWorkflowExecution ev = false) evs /\
  match fst r with
  | Normal promises' => promises' = promises ++ omap (promise_of_call env (this w)) evs
  | Throw _ => True
  end.

(** *** More on the calls of a hook *)

Definition is_track (ev : Event) : bool :=
  match ev with EvTrack _ _ => true | _ => false end.

Definition is_consoleLog (ev : Event) : bool :=
  match ev with EvConsoleLog _ => true | _ => false end.

Definition is_persistBinaryData (ev : Event) : bool :=
  match ev with EvPersistBinaryData _ => true | _ => false end.

(** The hooks whose body is one [return this.telemetry.track(...)]. *)
Definition is_single_track_hook (call : HookCall) : bool :=
  match call with
  | OnServerStarted _ _ | OnWorkflowPostExecute _ _ _ _ | OnN8nStop => false
  | _ => true
  end.

(** Lines 171 to 191 on their own: the value of [nodeGraphResult] and of
    [manualExecEventProperties] at line 192. *)
Definition manualExecEventProperties (env : Imports) (self : InternalHooksClass)
    (workflow : IWorkflowBase) (properties : IExecutionTrackProperties)
    (nodeGraphResult : option INodesGraphResult) : JsObject * INodesGraphResult :=
  let nodeGraphResult :=
    match nodeGraphResult with
    | Some r => r
    | None => generateNodesGraph env workflow (nodeTypes self)
    end in
  let manualExecEventProperties :=
    obj_literal
      [ ("workflow_id", js_id (wf_id workflow));
        ("status", JStr (if success properties then "success" else "failed"));
        ("error_message", js_string (error_message properties));
        ("error_node_type", js_string (error_node_type properties));
        ("node_graph", js_graph (node_graph properties));
        ("node_graph_string", js_string (node_graph_string properties));
        ("error_node_id", js_string (error_node_id properties)) ] in
  if negb (js_truthy (obj_get manualExecEventProperties "node_graph")) then
    let nodeGraphResult := generateNodesGraph env workflow (nodeTypes self) in
    let m := obj_set manualExecEventProperties "node_graph"
               (JGraph (nodeGraph nodeGraphResult)) in
    let m := obj_set m "node_graph_string"
               (JStr (JSON_stringify env (nodeGraph nodeGraphResult))) in
    (m, nodeGraphResult)
  else (manualExecEventProperties, nodeGraphResult).

(** The reason of a rejection is a [TypeError]. *)
Definition starts_with_TypeError (reason : JsError) : bool :=
  JsString.starts_with "TypeError: " reason.

(** [runData.data.startData?.destinationNode], when it is truthy. *)
Definition destinationNodeOf (runData : IRun) : option string :=
  truthy_string
    (match startData (run_data runData) with
     | Some sd => destinationNode sd
     | None => None
     end).

End InternalHooks.

(** ** Concrete runs

    An installation to run the mixin and the hooks on: a parser outcome, an
    analytics client and imports with fixed answers. *)

Module Examples.
Import InternalHooks.

(** [JSON.parse] rejects the two-line text [{], [a: 1}] at position 2. *)
Definition pinDataExampleText : string :=
  "{" +:+ String JsString.newline "a: 1}".

Definition pinDataExample : PinData.Context :=
  {| PinData.JSON_parse := fun data =>
       if String.eqb data pinDataExampleText
       then PinData.SyntaxError "Unexpected token a in JSON at position 2"
       else PinData.Parsed;
     PinData.baseText := fun key => key;
     PinData.stringSizeInBytes := fun data => Z.of_nat (String.length data);
     PinData.MAX_WORKFLOW_PINNED_DATA_SIZE := 12582912;
     PinData.pinDataSize := 0 |}.

(** [JSON.parse] rejects the three-line text [{], [a: 1], [}] at position
    2, in its second line. *)
Definition pinDataThreeLines : string :=
  "{" +:+ String JsString.newline ("a: 1" +:+ String JsString.newline "}").

Definition pinDataThreeLinesExample : PinData.Context :=
  {| PinData.JSON_parse := fun data =>
       if String.eqb data pinDataThreeLines
       then PinData.SyntaxError "Unexpected token a in JSON at position 2"
       else PinData.Parsed;
     PinData.baseText := fun key => key;
     PinData.stringSizeInBytes := fun data => Z.of_nat (String.length data);
     PinData.MAX_WORKFLOW_PINNED_DATA_SIZE := 12582912;
     PinData.pinDataSize := 0 |}.

(** An analytics client whose calls all succeed after 10 ms. *)
Definition okTelemetry : Telemetry :=
  {| identify := fun _ => Settled 10 Fulfilled;
     track := fun _ _ => Settled 10 Fulfilled;
     trackWorkflowExecution := fun _ => Settled 10 Fulfilled;
     trackN8nStop := Settled 10 Fulfilled |}.

(** An analytics client whose [trackWorkflowExecution] fails after 10 ms. *)
Definition failingTelemetry : Telemetry :=
  {| identify := fun _ => Settled 10 Fulfilled;
     track := fun _ _ => Settled 10 Fulfilled;
     trackWorkflowExecution := fun _ => Settled 10 (Rejected "Error: connect ECONNREFUSED");
     trackN8nStop := Settled 10 Fulfilled |}.

Definition webhookNode : INode :=
  {| node_name := "Webhook"; node_type := "n8n-nodes-base.webhook" |}.

Definition exampleGraph : INodesGraphResult :=
  {| nodeGraph :=
       {| node_types := ["n8n-nodes-base.webhook"];
          node_connections := [];
          graph_nodes := [("0", "n8n-nodes-base.webhook")];
          notes := [] |};
     nameIndices := [("Webhook", "0")];
     webhookNodeName := Some "Webhook" |}.

Definition exampleImports : Imports :=
  {| generateNodesGraph := fun _ _ => exampleGraph;
     getNodeTypeForName := fun workflow name =>
       List.find (fun node => String.eqb (node_name node) name) (wf_nodes workflow);
     persistBinaryDataForExecutionId := fun _ => Settled 3 Fulfilled;
     snakeCase := ChangeCase.snakeCase;
     JSON_stringify := fun _ => "{}" |}.

Definition exampleWorkflow : IWorkflowBase :=
  {| wf_id := Some (IdNumber 12);
     wf_name := "My workflow";
     wf_nodes := [webhookNode];
     wf_tags := None |}.

Definition unsavedWorkflow : IWorkflowBase :=
  {| wf_id := None; wf_name := "My workflow"; wf_nodes := [webhookNode]; wf_tags := None |}.

(** A finished run started by a trigger. *)
Definition triggerRun : IRun :=
  {| run_data :=
       {| startData := None;
          resultData :=
            {| result_error := None;
               result_runData := [("Webhook", [ {| task_data := None |} ])];
               lastNodeExecuted := Some "Webhook" |} |};
     finished := Some true;
     mode := "trigger" |}.

(** A manual run of the whole workflow in which the webhook node has no
    entry in [runData]. *)
Definition manualRunWithoutWebhookData : IRun :=
  {| run_data :=
       {| startData := None;
          resultData :=
            {| result_error := None;
               result_runData := [];
               lastNodeExecuted := None |} |};
     finished := Some true;
     mode := "manual" |}.

(** A manual run of the whole workflow with the data of the webhook call. *)
Definition manualRunWithWebhookData : IRun :=
  {| run_data :=
       {| startData := None;
          resultData :=
            {| result_error := None;
               result_runData :=
                 [ ("Webhook",
                    [ {| task_data :=
                           Some [ ("main",
                                   [ Some [ {| json :=
                                                 [("headers",
                                                   JObj [("host", JStr "n8n.example")])] |} ] ]) ]
                      |} ]) ];
               lastNodeExecuted := Some "Webhook" |} |};
     finished := Some true;
     mode := "manual" |}.

(** A failed manual run of one node. *)
Definition failedNodeRun : IRun :=
  {| run_data :=
       {| startData := Some {| destinationNode := Some "Webhook" |};
          resultData :=
            {| result_error :=
                 Some {| error_message_of := "Request failed"; error_node := Some webhookNode |};
               result_runData := [];
               lastNodeExecuted := Some "Webhook" |} |};
     finished := None;
     mode := "manual" |}.

(** An analytics client that never answers [trackN8nStop]. *)
Definition silentTelemetry : Telemetry :=
  {| identify := fun _ => Pending;
     track := fun _ _ => Pending;
     trackWorkflowExecution := fun _ => Pending;
     trackN8nStop := Pending |}.

Definition okWorld : World := initialWorld okTelemetry "0.181.0" (NodeTypesRef 0).

Definition failingWorld : World := initialWorld failingTelemetry "0.181.0" (NodeTypesRef 0).

(** Survey answers with two keys that convert to [company_size]. *)
Definition clashingAnswers : list (string * string) :=
  [("companySize", "20-99"); ("company_size", "1000+")].

Definition surveyAnswers : list (string * string) :=
  [("codingSkill", "5"); ("companySize", "20-99")].

(** Imports whose node graph names no webhook node. *)
Definition plainImports : Imports :=
  {| generateNodesGraph := fun _ _ =>
       {| nodeGraph := nodeGraph exampleGraph;
          nameIndices := nameIndices exampleGraph;
          webhookNodeName := None |};
     getNodeTypeForName := getNodeTypeForName exampleImports;
     persistBinaryDataForExecutionId := persistBinaryDataForExecutionId exampleImports;
     snakeCase := ChangeCase.snakeCase;
     JSON_stringify := JSON_stringify exampleImports |}.

(** Survey answers with a key that converts to [user_id]. *)
Definition answersWithUserId : list (string * string) :=
  [("companySize", "20-99"); ("userId", "someone-else")].

(** Data of a deleted user that has a [user_id] of its own. *)
Definition deletionData : JsObject :=
  [("migration_strategy", JStr "transfer_data"); ("user_id", JStr "u9")].

End Examples.

(** * Properties *)

(** ** Facts about the string primitives *)

#[local] Arguments String.append !_ _ / : simpl nomatch.

Section StringFacts.
Import JsString.

Lemma length_append (a b : string) :
  String.length (a +:+ b) = (String.length a + String.length b)%nat.
Proof. induction a as [|c a IH]; simpl; [reflexivity | f_equal; exact IH]. Qed.

Lemma append_assoc (a b c : string) : (a +:+ b) +:+ c = a +:+ (b +:+ c).
Proof. induction a as [|x a IH]; simpl; [reflexivity | f_equal; exact IH]. Qed.

Lemma drop_append (a b : string) : drop (String.length a) (a +:+ b) = b.
Proof. induction a as [|c a IH]; simpl; [reflexivity | exact IH]. Qed.

Lemma drop_append_ge (n : nat) (a b : string) :
  (n <= String.length a)%nat -> drop n (a +:+ b) = drop n a +:+ b.
Proof.
  revert a. induction n as [|n IH]; intros a Hn; [reflexivity|].
  destruct a as [|c a]; simpl in *; [lia|]. apply IH. lia.
Qed.

Lemma length_drop (n : nat) (a : string) :
  String.length (drop n a) = (String.length a - n)%nat.
Proof.
  revert a. induction n as [|n IH]; intros a; simpl; [lia|].
  destruct a as [|c a]; simpl; [reflexivity | apply IH].
Qed.

Lemma ends_with_append (p a : string) : ends_with p (a +:+ p) = true.
Proof.
  unfold ends_with. rewrite length_append.
  replace (String.length a + String.length p - String.length p)%nat
    with (String.length a) by lia.
  rewrite drop_append. apply String.eqb_refl.
Qed.

Lemma starts_with_append (p r : string) : starts_with p (p +:+ r) = true.
Proof.
  induction p as [|c p IH]; simpl; [reflexivity|].
  now rewrite Ascii.eqb_refl.
Qed.

(** A prefix test only looks at the first [length p] code units. *)
Lemma starts_with_append_ge (p a b : string) :
  (String.length p <= String.length a)%nat ->
  starts_with p (a +:+ b) = starts_with p a.
Proof.
  revert a. induction p as [|c p IH]; intros a Hlen; [reflexivity|].
  destruct a as [|x a]; simpl in *; [lia|].
  destruct (Ascii.eqb c x); [apply IH; lia | reflexivity].
Qed.

(** A run of digits that is empty on a non-empty string stays empty when
    the string is extended. *)
Lemma leading_digits_append_none (a b : string) :
  a <> EmptyString -> leading_digits a = EmptyString ->
  leading_digits (a +:+ b) = EmptyString.
Proof.
  destruct a as [|c a]; [congruence|]. simpl.
  destruct (is_digit c); [discriminate | reflexivity].
Qed.

Lemma leading_digits_all (ds post : string) :
  all_digits ds = true -> no_leading_digit post ->
  leading_digits (ds +:+ post) = ds.
Proof.
  intros Hds Hpost. induction ds as [|c ds IH]; simpl in *; [exact Hpost|].
  apply andb_true_iff in Hds as [Hc Hds]. rewrite Hc. now rewrite IH.
Qed.

Lemma match_literal_digits_unfold (lit s : string) :
  match_literal_digits lit s =
  match match_here lit s with
  | Some ds => Some ds
  | None =>
      match s with
      | EmptyString => None
      | String _ s' => match_literal_digits lit s'
      end
  end.
Proof. destruct s; reflexivity. Qed.

(** A match that needs more code units than [a] has cannot be found in
    [a]; one that fails inside [a ++ lit] fails in every extension. *)
Lemma match_here_extend (lit a rest : string) :
  a <> EmptyString ->
  match_here lit (a +:+ lit) = None ->
  match_here lit (a +:+ lit +:+ rest) = None.
Proof.
  intros Ha. unfold match_here.
  rewrite <- (append_assoc a lit rest).
  rewrite (starts_with_append_ge lit (a +:+ lit) rest)
    by (rewrite length_append; lia).
  destruct (starts_with lit (a +:+ lit)); [|reflexivity].
  rewrite (drop_append_ge (String.length lit) (a +:+ lit) rest)
    by (rewrite length_append; lia).
  intros H.
  assert (Hne : drop (String.length lit) (a +:+ lit) <> EmptyString).
  { intros E. apply (f_equal String.length) in E.
    rewrite length_drop, length_append in E. simpl in E.
    destruct a; [congruence | simpl in E; lia]. }
  destruct (leading_digits (drop (String.length lit) (a +:+ lit))) eqn:E;
    [|discriminate].
  now rewrite leading_digits_append_none.
Qed.

(** When no match is complete before the occurrence of [lit] that the
    digits [ds] follow, the leftmost match captures [ds]. *)
Lemma match_literal_digits_found (lit pre ds post : string) :
  match_literal_digits lit (pre +:+ lit) = None ->
  ds <> EmptyString -> all_digits ds = true -> no_leading_digit post ->
  match_literal_digits lit (pre +:+ lit +:+ ds +:+ post) = Some ds.
Proof.
  intros Hpre Hne Hds Hpost. induction pre as [|c pre IH].
  - simpl. rewrite match_literal_digits_unfold. unfold match_here.
    rewrite starts_with_append, drop_append, leading_digits_all by assumption.
    destruct ds; [congruence | reflexivity].
  - rewrite match_literal_digits_unfold in Hpre.
    destruct (match_here lit (String c pre +:+ lit)) eqn:Hhere; [discriminate|].
    simpl in Hpre. rewrite match_literal_digits_unfold.
    rewrite (match_here_extend lit (String c pre) (ds +:+ post)) by (congruence || assumption).
    simpl. apply IH. exact Hpre.
Qed.

(** The mixin's count of line breaks before a position is the count of
    the specification. *)
Lemma count_newlines_take_spec (n : nat) (s : string) :
  count_newlines (take n s) = PinDataSpec.newlines_among_first n s.
Proof.
  unfold PinDataSpec.newlines_among_first.
  revert s. induction n as [|n IH]; intros [|c s]; try reflexivity.
  cbn [take count_newlines String.list_ascii_of_string List.firstn List.filter].
  rewrite IH. unfold newline.
  destruct (Ascii.eqb c (Ascii.ascii_of_nat 10)) eqn:E;
    change (Ascii.ascii_of_nat 10) with "010"%char in E; rewrite E; reflexivity.
Qed.

Lemma is_digit_range (c : ascii) :
  is_digit c = true <-> (48 <= Ascii.nat_of_ascii c <= 57)%nat.
Proof.
  unfold is_digit. rewrite andb_true_iff, !Nat.leb_le. tauto.
Qed.

(** [parseInt] reads back the decimal numeral of a number. *)
Lemma pretty_N_char_digit (d : N) :
  (d < 10)%N ->
  is_digit (pretty_N_char d) = true /\ digit_value (pretty_N_char d) = N.to_nat d.
Proof.
  intros Hd.
  assert (Hcases : (d = 0 \/ d = 1 \/ d = 2 \/ d = 3 \/ d = 4 \/ d = 5 \/ d = 6 \/ d = 7
                    \/ d = 8 \/ d = 9)%N) by lia.
  repeat (destruct Hcases as [->|Hcases]; [split; reflexivity|]).
  subst d. split; reflexivity.
Qed.

Lemma parse_digits_pretty_go (x : N) (s : string) :
  parse_digits O (pretty_N_go x s) = parse_digits (N.to_nat x) s.
Proof.
  revert s. induction (N.lt_wf_0 x) as [x _ IH]; intros s.
  assert (Hx : (x = 0 \/ 0 < x)%N) by lia. destruct Hx as [->|Hx]; [reflexivity|].
  rewrite pretty_N_go_step by exact Hx.
  rewrite IH by (apply N.div_lt; lia).
  cbn [parse_digits].
  destruct (pretty_N_char_digit (x `mod` 10)%N) as [_ ->]; [apply N.mod_lt; lia|].
  f_equal. pose proof (N.div_mod x 10). lia.
Qed.

Lemma all_digits_pretty_go (x : N) (s : string) :
  all_digits s = true -> all_digits (pretty_N_go x s) = true.
Proof.
  revert s. induction (N.lt_wf_0 x) as [x _ IH]; intros s Hs.
  assert (Hx : (x = 0 \/ 0 < x)%N) by lia. destruct Hx as [->|Hx]; [exact Hs|].
  rewrite pretty_N_go_step by exact Hx.
  apply IH; [apply N.div_lt; lia|].
  cbn [all_digits].
  destruct (pretty_N_char_digit (x `mod` 10)%N) as [-> _]; [apply N.mod_lt; lia | exact Hs].
Qed.

Lemma pretty_go_nonempty (x : N) (s : string) :
  pretty_N_go x s = EmptyString -> x = 0%N /\ s = EmptyString.
Proof.
  revert s. induction (N.lt_wf_0 x) as [x _ IH]; intros s.
  assert (Hx : (x = 0 \/ 0 < x)%N) by lia. destruct Hx as [->|Hx]; [now split|].
  rewrite pretty_N_go_step by exact Hx. intros He.
  apply IH in He as [_ He]; [discriminate | apply N.div_lt; lia].
Qed.

Lemma pretty_nat_numeral (n : nat) :
  parseInt10 (pretty n) = n /\ all_digits (pretty n) = true /\ pretty n <> EmptyString.
Proof.
  unfold pretty, pretty_nat, pretty, pretty_N, parseInt10.
  destruct (decide (N.of_nat n = 0%N)) as [Hz|Hnz].
  - split; [change (parse_digits O "0") with O; lia|]. split; [reflexivity | discriminate].
  - rewrite parse_digits_pretty_go. cbn [parse_digits].
    repeat split; [lia | now apply all_digits_pretty_go |].
    intros He. apply pretty_go_nonempty in He as [He _]. contradiction.
Qed.

(** The leftmost match of [lit] followed by a digit, without the functions
    of the mixin: there is a match in [s] exactly when [s] can be cut into
    some text, [lit], a digit and a rest. *)
Lemma starts_with_cut (p s : string) :
  starts_with p s = true -> s = p +:+ drop (String.length p) s.
Proof.
  revert s. induction p as [|a p IH]; intros s Hs; [reflexivity|].
  destruct s as [|b s]; [discriminate|]. simpl in *.
  destruct (Ascii.eqb_spec a b) as [->|]; [|discriminate].
  f_equal. now apply IH.
Qed.

Lemma match_here_cut (lit s ds : string) :
  match_here lit s = Some ds ->
  exists d rest, s = lit +:+ String d rest /\ is_digit d = true.
Proof.
  unfold match_here. destruct (starts_with lit s) eqn:Hstart; [|discriminate].
  apply starts_with_cut in Hstart.
  destruct (drop (String.length lit) s) as [|d rest]; [discriminate|].
  cbn [leading_digits]. destruct (is_digit d) eqn:Hd; [|discriminate].
  intros _. now exists d, rest.
Qed.

Lemma match_literal_digits_none (lit s : string) :
  match_literal_digits lit s = None <->
  (forall a d rest,
     s = a +:+ lit +:+ String d rest -> ~ (48 <= Ascii.nat_of_ascii d <= 57)%nat).
Proof.
  split.
  - intros Hnone a. revert s Hnone.
    induction a as [|c a IH]; intros s Hnone d rest -> Hd;
      rewrite match_literal_digits_unfold in Hnone.
    + unfold match_here in Hnone. cbn [String.append] in Hnone.
      rewrite starts_with_append, drop_append in Hnone. cbn [leading_digits] in Hnone.
      apply is_digit_range in Hd. rewrite Hd in Hnone. discriminate.
    + destruct (match_here lit (String c a +:+ lit +:+ String d rest)); [discriminate|].
      cbn [String.append] in Hnone. exact (IH _ Hnone d rest eq_refl Hd).
  - induction s as [|c s IH]; intros Hcut; rewrite match_literal_digits_unfold.
    + destruct (match_here lit EmptyString) as [ds|] eqn:Hhere; [|reflexivity].
      apply match_here_cut in Hhere as (d & rest & Hs & Hd).
      exfalso. apply (Hcut EmptyString d rest Hs). now apply is_digit_range.
    + destruct (match_here lit (String c s)) as [ds|] eqn:Hhere.
      * apply match_here_cut in Hhere as (d & rest & Hs & Hd).
        exfalso. apply (Hcut EmptyString d rest Hs). now apply is_digit_range.
      * apply IH. intros a d rest -> Hd.
        exact (Hcut (String c a) d rest eq_refl Hd).
Qed.

Lemma no_leading_digit_range (post : string) :
  (forall d rest, post = String d rest -> ~ (48 <= Ascii.nat_of_ascii d <= 57)%nat) ->
  no_leading_digit post.
Proof.
  intros Hpost. unfold no_leading_digit. destruct post as [|d rest]; [reflexivity|].
  cbn [leading_digits]. destruct (is_digit d) eqn:Hd; [|reflexivity].
  exfalso. apply (Hpost d rest eq_refl). now apply is_digit_range.
Qed.

(** The code units of what [replace] and [trim] return are code units of
    their argument. *)
Lemma remove_all_from_chars (p1 p2 : string) (k : nat) (s : string) (c : ascii) :
  In c (String.list_ascii_of_string (remove_all_from p1 p2 k s)) ->
  In c (String.list_ascii_of_string s).
Proof.
  revert k. induction s as [|x s IH]; intros k; [exact (fun H => H)|].
  cbn [remove_all_from String.list_ascii_of_string].
  destruct k as [|k].
  - destruct (starts_with p1 (String x s)); [intros H; right; eapply IH, H|].
    destruct (starts_with p2 (String x s)); [intros H; right; eapply IH, H|].
    cbn [String.list_ascii_of_string]. intros [H|H]; [now left | right; eapply IH, H].
  - intros H. right. eapply IH, H.
Qed.

Lemma trim_start_chars (s : string) (c : ascii) :
  In c (String.list_ascii_of_string (trim_start s)) -> In c (String.list_ascii_of_string s).
Proof.
  induction s as [|x s IH]; [exact (fun H => H)|].
  cbn [trim_start]. destruct (is_space x); [intros H; right; now apply IH | exact (fun H => H)].
Qed.

Lemma trim_end_chars (s : string) (c : ascii) :
  In c (String.list_ascii_of_string (trim_end s)) -> In c (String.list_ascii_of_string s).
Proof.
  induction s as [|x s IH]; [exact (fun H => H)|].
  cbn [trim_end String.list_ascii_of_string].
  destruct (trim_end s) as [|y t].
  - destruct (is_space x); [intros [] | intros [H|[]]; now left].
  - intros [H|H]; [now left | right; now apply IH].
Qed.

Lemma trim_chars (s : string) (c : ascii) :
  In c (String.list_ascii_of_string (trim s)) -> In c (String.list_ascii_of_string s).
Proof. intros H. now apply trim_start_chars, trim_end_chars. Qed.

End StringFacts.

(** ** The pin-data mixin *)

Section PinDataProperties.
Import JsString PinData.
Variable this : Context.

(** The message always ends with a full stop, and with the line suffix in
    front of it when the error carries a position. *)
Lemma pinDataErrorMessage_line (data errorMessage ds : string) :
  match_literal_digits "at position " errorMessage = Some ds ->
  ends_with (lineSuffix data ds +:+ ".") (pinDataErrorMessage data errorMessage) = true.
Proof.
  intros Hmatch. unfold pinDataErrorMessage. rewrite Hmatch.
  rewrite append_assoc. apply ends_with_append.
Qed.

(** C4. [isValidPinDataJSON(data)] returns [true] if and only if
    [JSON.parse(data)] succeeds; when the parse fails it shows exactly one
    error and returns [false]; when the parse succeeds it shows nothing. *)
Theorem isValidPinDataJSON_iff_parse (data : string) :
  (fst (isValidPinDataJSON this data) = true <-> JSON_parse this data = Parsed) /\
  match JSON_parse this data with
  | Parsed => isValidPinDataJSON this data = (true, [])
  | SyntaxError errorMessage =>
      fst (isValidPinDataJSON this data) = false /\
      List.length (errors_shown (snd (isValidPinDataJSON this data))) = 1%nat /\
      snd (isValidPinDataJSON this data) =
        [ShowError (pinDataErrorMessage data errorMessage)
           (baseText this "runData.editOutputInvalid")]
  end.
Proof.
  unfold isValidPinDataJSON.
  destruct (JSON_parse this data) as [|errorMessage]; simpl.
  - split; [split; reflexivity | reflexivity].
  - split; [split; discriminate | auto].
Qed.

Lemma isValidPinDataSize_result (data : string) :
  fst (isValidPinDataSize this data) =
  (pinDataSize this + stringSizeInBytes this data <=? MAX_WORKFLOW_PINNED_DATA_SIZE this).
Proof.
  unfold isValidPinDataSize. rewrite Z.gtb_ltb, Z.ltb_antisym.
  destruct (_ <=? _); reflexivity.
Qed.

(** C9. [isValidPinDataSize(data)] returns [true] if and only if the pinned
    size of the store plus the size of [data] is at most
    [MAX_WORKFLOW_PINNED_DATA_SIZE]; the 'too large' error is shown exactly
    when it returns [false]; [isValidPinData] runs the JSON check first and,
    when that fails, does not run the size check: the store is not read and
    nothing but the JSON error is shown. *)
Theorem isValidPinDataSize_iff_fits (data : string) :
  (fst (isValidPinDataSize this data) = true <->
     pinDataSize this + stringSizeInBytes this data <= MAX_WORKFLOW_PINNED_DATA_SIZE this) /\
  errors_shown (snd (isValidPinDataSize this data)) =
    (if fst (isValidPinDataSize this data) then [] else [tooLargeError this]) /\
  isValidPinData this data =
    (fst (isValidPinDataJSON this data) && fst (isValidPinDataSize this data),
     snd (isValidPinDataJSON this data) ++
       (if fst (isValidPinDataJSON this data) then snd (isValidPinDataSize this data) else [])) /\
  (fst (isValidPinDataJSON this data) = false ->
     isValidPinData this data = (false, snd (isValidPinDataJSON this data)) /\
     List.filter is_store_getter (snd (isValidPinData this data)) = []).
Proof.
  split; [|split; [|split]].
  - rewrite isValidPinDataSize_result. apply Z.leb_le.
  - unfold isValidPinDataSize. destruct (_ >? _); reflexivity.
  - unfold isValidPinData.
    destruct (isValidPinDataJSON this data) as [[|] t1];
      destruct (isValidPinDataSize this data) as [b2 t2]; simpl;
      [reflexivity | now rewrite app_nil_r].
  - unfold isValidPinData, isValidPinDataJSON.
    destruct (JSON_parse this data); simpl; [discriminate|].
    intros _. split; reflexivity.
Qed.

(** C10. When [JSON.parse] fails with a message that contains
    [at position N], the decimal numeral of [N] coming after the first
    [at position ] that a digit follows and no digit coming after the
    numeral, the message shown to the user ends with [, line L.] where [L]
    is one plus the number of newline characters among the first [N]
    characters of [data]. *)
Theorem isValidPinDataJSON_line_number (data pre post : string) (N : nat) :
  JSON_parse this data = SyntaxError (pre +:+ "at position " +:+ pretty N +:+ post) ->
  (forall a d rest,
     pre +:+ "at position " = a +:+ "at position " +:+ String d rest ->
     ~ (48 <= Ascii.nat_of_ascii d <= 57)%nat) ->
  (forall d rest, post = String d rest -> ~ (48 <= Ascii.nat_of_ascii d <= 57)%nat) ->
  exists head title,
    isValidPinDataJSON this data =
    (false,
     [ShowError
        (head +:+ ", line " +:+
         pretty (1 + PinDataSpec.newlines_among_first N data)%nat +:+ ".")
        title]).
Proof.
  intros Hparse Hpre Hpost.
  destruct (pretty_nat_numeral N) as (Hvalue & Hdigits & Hnonempty).
  pose proof (match_literal_digits_found "at position " pre (pretty N) post
                (proj2 (match_literal_digits_none _ _) Hpre) Hnonempty Hdigits
                (no_leading_digit_range post Hpost)) as Hmatch.
  unfold isValidPinDataJSON. rewrite Hparse.
  unfold pinDataErrorMessage. rewrite Hmatch. unfold lineSuffix.
  rewrite Hvalue, count_newlines_take_spec, Nat.add_comm.
  set (message := trim (remove_all "JSON.parse:" "of the JSON data"
                          (pre +:+ "at position " +:+ pretty N +:+ post))).
  exists (toUpperCase1 (charAt0 message) +:+ drop 1 message),
    (baseText this "runData.editOutputInvalid").
  now rewrite !append_assoc.
Qed.

End PinDataProperties.

Example pinDataErrorMessage_position :
  PinData.pinDataErrorMessage Examples.pinDataExampleText
    "Unexpected token a in JSON at position 2"
  = "Unexpected token a in JSON at position 2, line 2.".
Proof. reflexivity. Qed.

Example pinDataErrorMessage_no_position :
  PinData.pinDataErrorMessage "x"
    "JSON.parse: unexpected character at line 1 column 1 of the JSON data"
  = "Unexpected character at line 1 column 1.".
Proof. reflexivity. Qed.

Example isValidPinData_rejects_text :
  PinData.isValidPinData Examples.pinDataExample Examples.pinDataExampleText
  = (false,
     [PinData.ShowError "Unexpected token a in JSON at position 2, line 2."
        "runData.editOutputInvalid"]).
Proof. reflexivity. Qed.

Example isValidPinData_accepts_text :
  PinData.isValidPinData Examples.pinDataExample "[]"
  = (true, [PinData.StoreGetter "pinDataSize"]).
Proof. reflexivity. Qed.

Lemma isValidPinDataJSON_line_number_witness :
  exists head title,
    PinData.isValidPinDataJSON Examples.pinDataThreeLinesExample Examples.pinDataThreeLines =
    (false, [PinData.ShowError (head +:+ ", line 2.") title]).
Proof.
  refine (isValidPinDataJSON_line_number Examples.pinDataThreeLinesExample
            Examples.pinDataThreeLines "Unexpected token a in JSON " EmptyString 2
            eq_refl _ _).
  - exact (proj1 (match_literal_digits_none "at position "
                    "Unexpected token a in JSON at position ") eq_refl).
  - intros d rest Hpost. discriminate Hpost.
Defined.

(** ** The telemetry hooks *)

Section Footprints.
Import InternalHooks.
Local Open Scope hook_scope.
Variable P : Event -> Prop.

Lemma extends_by_refl (w : World) : extends_by P w w.
Proof. split; [reflexivity|]. exists []. now rewrite app_nil_r. Qed.

Lemma extends_by_trans (w1 w2 w3 : World) :
  extends_by P w1 w2 -> extends_by P w2 w3 -> extends_by P w1 w3.
Proof.
  intros [Ht1 (e1 & He1 & HP1)] [Ht2 (e2 & He2 & HP2)]. split; [congruence|].
  exists (e1 ++ e2). split.
  - now rewrite He2, He1, <- app_assoc.
  - apply Forall_app; auto.
Qed.

Lemma footprint_ret {A : Type} (a : A) : footprint P (ret a).
Proof. intros w. apply extends_by_refl. Qed.

Lemma footprint_throw {A : Type} (e : JsError) : footprint P (@throw A e).
Proof. intros w. apply extends_by_refl. Qed.

Lemma footprint_get_this : footprint P get_this.
Proof. intros w. apply extends_by_refl. Qed.

Lemma footprint_emit (ev : Event) : P ev -> footprint P (emit ev).
Proof.
  intros Hev w. split; [reflexivity|]. exists [ev]. split; [reflexivity|].
  now constructor.
Qed.

Lemma footprint_bind {A B : Type} (m : M A) (k : A -> M B) :
  footprint P m -> (forall a, footprint P (k a)) -> footprint P (bind m k).
Proof.
  intros Hm Hk w. unfold bind. specialize (Hm w).
  destruct (m w) as [[a|e] w']; simpl in *; [|exact Hm].
  eapply extends_by_trans; [exact Hm | apply Hk].
Qed.

Lemma footprint_async (body : M Promise) : footprint P body -> hook_footprint P (async body).
Proof.
  intros Hb w. unfold async. specialize (Hb w).
  destruct (body w) as [[p|e] w']; exact Hb.
Qed.

End Footprints.

Section HookFootprints.
Import InternalHooks.
Local Open Scope hook_scope.
Variable P : Event -> Prop.
Hypothesis P_calls : forall ev, is_setTimeout ev = false -> P ev.

Ltac footprint_step :=
  first
    [ apply footprint_async
    | apply footprint_ret
    | apply footprint_throw
    | apply footprint_get_this
    | apply footprint_emit; apply P_calls; reflexivity
    | apply footprint_bind; [|intros ?]
    | match goal with
      | |- footprint _ (match ?x with _ => _ end) => destruct x
      end ].

Ltac footprint_auto := repeat footprint_step.

Lemma footprint_telemetry_track (eventName : string) (properties : JsObject) :
  footprint P (telemetry_track eventName properties).
Proof. unfold telemetry_track. footprint_auto. Qed.

Lemma footprint_track_hook (eventName : string) (properties : JsObject) :
  hook_footprint P (async (telemetry_track eventName properties)).
Proof. apply footprint_async, footprint_telemetry_track. Qed.

Lemma footprint_logWebhookHeaders (runData : IRun) (r : INodesGraphResult) :
  footprint P (logWebhookHeaders runData r).
Proof. unfold logWebhookHeaders, webhookMainData, console_log. footprint_auto. Qed.

Lemma footprint_manualExecution env self workflow runData properties r promises :
  footprint P (manualExecution env self workflow runData properties r promises).
Proof.
  unfold manualExecution, console_log.
  repeat first
    [ apply footprint_telemetry_track | apply footprint_logWebhookHeaders | footprint_step ].
Qed.

Lemma footprint_onWorkflowPostExecute env executionId workflow runData userId :
  hook_footprint P (onWorkflowPostExecute env executionId workflow runData userId).
Proof.
  unfold onWorkflowPostExecute, persistBinaryData, telemetry_trackWorkflowExecution.
  repeat first [ apply footprint_manualExecution | footprint_step ].
Qed.

(** Every hook but [onN8nStop] leaves the instance as it is and sets no
    timer. *)
Lemma footprint_invoke (env : Imports) (call : HookCall) :
  call <> OnN8nStop -> hook_footprint P (invoke env call).
Proof.
  intros Hcall.
  destruct call; simpl; try congruence;
    try apply footprint_track_hook;
    try apply footprint_onWorkflowPostExecute.
  - unfold onServerStarted, telemetry_identify.
    repeat first [ apply footprint_telemetry_track | footprint_step ].
  - unfold onWorkflowCreated.
    repeat first [ apply footprint_telemetry_track | footprint_step ].
  - unfold onWorkflowSaved.
    repeat first [ apply footprint_telemetry_track | footprint_step ].
Qed.

Lemma footprint_onN8nStop : P (EvSetTimeout 3000) -> hook_footprint P onN8nStop.
Proof.
  intros Htimer. unfold onN8nStop, timeout_promise, telemetry_trackN8nStop.
  repeat first [ apply footprint_emit; exact Htimer | footprint_step ].
Qed.

End HookFootprints.

Section HookProperties.
Import InternalHooks.
Local Open Scope hook_scope.

Lemma calls_of_trace (r : Promise * World) (w : World) (evs : list Event) :
  trace (snd r) = trace w ++ evs -> calls_of r w = evs.
Proof. intros H. unfold calls_of. rewrite H. apply drop_app_length. Qed.

Lemma async_track_run (eventName : string) (properties : JsObject) (w : World) :
  async (telemetry_track eventName properties) w =
  (track (telemetry (this w)) eventName properties,
   {| this := this w; trace := trace w ++ [EvTrack eventName properties] |}).
Proof. reflexivity. Qed.

Lemma invoke_keeps_this (env : Imports) (call : HookCall) (w : World) :
  this (snd (invoke env call w)) = this w.
Proof.
  assert (Hcall : call = OnN8nStop \/ call <> OnN8nStop)
    by (destruct call; first [left; reflexivity | right; discriminate]).
  destruct Hcall as [->|Hcall].
  - now apply (footprint_onN8nStop (fun _ => True)).
  - now apply (footprint_invoke (fun _ => True)).
Qed.

Lemma run_calls_keeps_this (env : Imports) (calls : list HookCall) (w : World) :
  this (run_calls env calls w) = this w.
Proof.
  revert w. induction calls as [|call calls IH]; intros w; [reflexivity|].
  simpl. rewrite IH. apply invoke_keeps_this.
Qed.

(** C6. No method changes the state of the instance: after any call, and
    after any sequence of calls on a fresh instance, the fields
    [telemetry], [versionCli] and [nodeTypes] are what the constructor
    set. *)
Theorem hooks_keep_instance_fields (env : Imports) (t : Telemetry) (v : string)
    (n : INodeTypes) (calls : list HookCall) :
  (forall call w, this (snd (invoke env call w)) = this w) /\
  telemetry (this (run_calls env calls (initialWorld t v n))) = t /\
  versionCli (this (run_calls env calls (initialWorld t v n))) = v /\
  nodeTypes (this (run_calls env calls (initialWorld t v n))) = n.
Proof.
  split; [apply invoke_keeps_this|].
  rewrite run_calls_keeps_this. repeat split.
Qed.

Lemma Promise_race_timer (ms : nat) (p : Promise) :
  Promise_race [Settled ms Fulfilled; p] =
  match p with
  | Pending => Settled ms Fulfilled
  | Settled t o => if (t <? ms)%nat then Settled t o else Settled ms Fulfilled
  end.
Proof. destruct p; reflexivity. Qed.

Lemma onN8nStop_run (w : World) :
  onN8nStop w =
  (Promise_race [Settled 3000 Fulfilled; trackN8nStop (telemetry (this w))],
   {| this := this w; trace := trace w ++ [EvSetTimeout 3000; EvTrackN8nStop] |}).
Proof.
  unfold onN8nStop, async, bind, timeout_promise, telemetry_trackN8nStop, bind, emit,
    ret, get_this.
  cbn [this trace]. now rewrite <- app_assoc.
Qed.

(** C3. [onN8nStop] settles as soon as [telemetry.trackN8nStop()] settles
    or the timer of 3000 ms elapses, whichever comes first, so never later
    than 3000 ms after the call; no other method of the class sets a
    timer. *)
Theorem onN8nStop_settles_within_3000 (w : World) :
  calls_of (onN8nStop w) w = [EvSetTimeout 3000; EvTrackN8nStop] /\
  fst (onN8nStop w) =
    Promise_race [Settled 3000 Fulfilled; trackN8nStop (telemetry (this w))] /\
  (exists t, settled_at (fst (onN8nStop w)) = Some t /\ (t <= 3000)%nat) /\
  match trackN8nStop (telemetry (this w)) with
  | Pending => fst (onN8nStop w) = Settled 3000 Fulfilled
  | Settled t o =>
      settled_at (fst (onN8nStop w)) = Some (Nat.min t 3000) /\
      ((t < 3000)%nat -> fst (onN8nStop w) = Settled t o) /\
      ((3000 <= t)%nat -> fst (onN8nStop w) = Settled 3000 Fulfilled)
  end /\
  (forall env call w' ms,
     In (EvSetTimeout ms) (calls_of (invoke env call w') w') -> call = OnN8nStop).
Proof.
  rewrite onN8nStop_run. cbn [fst snd].
  split; [now apply calls_of_trace|]. split; [reflexivity|].
  rewrite Promise_race_timer.
  split; [|split].
  - destruct (trackN8nStop (telemetry (this w))) as [|t o].
    + exists 3000%nat. split; [reflexivity | lia].
    + destruct (Nat.ltb_spec t 3000).
      * exists t. split; [reflexivity | lia].
      * exists 3000%nat. split; [reflexivity | lia].
  - destruct (trackN8nStop (telemetry (this w))) as [|t o]; [reflexivity|].
    destruct (Nat.ltb_spec t 3000); cbn [settled_at].
    + repeat split; [f_equal; lia | lia].
    + repeat split; [f_equal; lia | lia].
  - intros env call w' ms Hin.
    assert (Hcall : call = OnN8nStop \/ call <> OnN8nStop)
      by (destruct call; first [left; reflexivity | right; discriminate]).
    destruct Hcall as [Hcall|Hcall]; [exact Hcall | exfalso].
    destruct (footprint_invoke (fun ev => is_setTimeout ev = false)
                ltac:(auto) env call Hcall w') as [_ (evs & Htrace & Hevs)].
    rewrite (calls_of_trace _ _ _ Htrace) in Hin.
    rewrite Forall_forall in Hevs. apply list_elem_of_In, Hevs in Hin. discriminate.
Qed.

(** C8. When [workflow.id] is absent or falsy, [onWorkflowPostExecute]
    resolves at once and makes no call at all: no [telemetry.track], no
    [telemetry.trackWorkflowExecution], no
    [persistBinaryDataForExecutionId]. *)
Theorem onWorkflowPostExecute_without_id (env : Imports) (executionId : string)
    (workflow : IWorkflowBase) (runData : option IRun) (userId : option string) (w : World) :
  truthy_id (wf_id workflow) = false ->
  onWorkflowPostExecute env executionId workflow runData userId w = (Promise_resolve, w) /\
  calls_of (onWorkflowPostExecute env executionId workflow runData userId w) w = [].
Proof.
  intros Hid.
  assert (H : onWorkflowPostExecute env executionId workflow runData userId w
              = (Promise_resolve, w)).
  { unfold onWorkflowPostExecute. destruct (wf_id workflow) as [id|]; [|reflexivity].
    rewrite Hid. reflexivity. }
  split; [exact H|]. rewrite H. apply calls_of_trace. cbn [snd]. now rewrite app_nil_r.
Qed.


Lemma onWorkflowSaved_run (env : Imports) (userId : string) (workflow : IWorkflowBase)
    (publicApi : bool) (w : World) :
  let nodeGraph := nodeGraph (generateNodesGraph env workflow (nodeTypes (this w))) in
  let overlappingCount :=
    List.length (List.filter (fun note => overlapping note) (obj_values (notes nodeGraph))) in
  let properties :=
    [ ("user_id", JStr userId);
      ("workflow_id", js_id (wf_id workflow));
      ("node_graph", JGraph nodeGraph);
      ("node_graph_string", JStr (JSON_stringify env nodeGraph));
      ("notes_count_overlapping", JNum (Z.of_nat overlappingCount));
      ("notes_count_non_overlapping",
        JNum (Z.of_nat (List.length (obj_keys (notes nodeGraph))) - Z.of_nat overlappingCount));
      ("version_cli", JStr (versionCli (this w)));
      ("num_tags", JNum (num_tags_of workflow));
      ("public_api", JBool publicApi) ] in
  onWorkflowSaved env userId workflow publicApi w =
  (track (telemetry (this w)) "User saved workflow" properties,
   {| this := this w; trace := trace w ++ [EvTrack "User saved workflow" properties] |}).
Proof. reflexivity. Qed.

(** C5. [onWorkflowSaved] makes exactly one [telemetry.track] call, for the
    event 'User saved workflow'; in its payload [notes_count_overlapping]
    plus [notes_count_non_overlapping] is the number of notes of the
    generated node graph, and [num_tags] is the length of [workflow.tags]
    when there are tags and 0 otherwise. *)
Theorem onWorkflowSaved_payload (env : Imports) (userId : string) (workflow : IWorkflowBase)
    (publicApi : bool) (w : World) :
  exists (properties : JsObject) (overlappingCount nonOverlappingCount : Z),
    calls_of (onWorkflowSaved env userId workflow publicApi w) w =
      [EvTrack "User saved workflow" properties] /\
    fst (onWorkflowSaved env userId workflow publicApi w) =
      track (telemetry (this w)) "User saved workflow" properties /\
    obj_get properties "notes_count_overlapping" = JNum overlappingCount /\
    obj_get properties "notes_count_non_overlapping" = JNum nonOverlappingCount /\
    overlappingCount + nonOverlappingCount =
      Z.of_nat (List.length
                  (notes (nodeGraph (generateNodesGraph env workflow (nodeTypes (this w)))))) /\
    0 <= overlappingCount /\ 0 <= nonOverlappingCount /\
    obj_get properties "num_tags" =
      JNum (match wf_tags workflow with
            | Some tags => Z.of_nat (List.length tags)
            | None => 0
            end).
Proof.
  pose proof (onWorkflowSaved_run env userId workflow publicApi w) as Hrun.
  cbv zeta in Hrun. rewrite Hrun. cbn [fst snd].
  eexists _, _, _.
  split; [now apply calls_of_trace|].
  split; [reflexivity|].
  split; [reflexivity|].
  split; [reflexivity|].
  set (g := nodeGraph (generateNodesGraph env workflow (nodeTypes (this w)))).
  assert (Hle : (List.length (List.filter (fun note => overlapping note) (obj_values (notes g)))
                 <= List.length (notes g))%nat).
  { unfold obj_values. rewrite <- (List.length_map snd (notes g)). apply List.filter_length_le. }
  unfold obj_keys. rewrite List.length_map.
  repeat split; [lia | lia | lia].
Qed.


(** Reading and listing a dictionary after an assignment. *)
Lemma obj_lookup_set {A : Type} (o : list (string * A)) (k k' : string) (v : A) :
  obj_lookup (obj_set o k v) k' = if String.eqb k k' then Some v else obj_lookup o k'.
Proof.
  induction o as [|[k0 v0] o IH]; simpl.
  - reflexivity.
  - destruct (String.eqb_spec k0 k) as [->|Hne]; simpl.
    + destruct (String.eqb k k'); reflexivity.
    + rewrite IH. destruct (String.eqb_spec k0 k') as [->|Hne'];
        [|reflexivity].
      destruct (String.eqb_spec k k'); [congruence | reflexivity].
Qed.

Lemma obj_keys_set {A : Type} (o : list (string * A)) (k k' : string) (v : A) :
  In k' (obj_keys (obj_set o k v)) <-> k' = k \/ In k' (obj_keys o).
Proof.
  unfold obj_keys. induction o as [|[k0 v0] o IH]; simpl.
  - intuition congruence.
  - destruct (String.eqb_spec k0 k) as [->|Hne]; simpl; [intuition congruence|].
    rewrite IH. intuition congruence.
Qed.

Lemma obj_lookup_middle {A : Type} (pre post : list (string * A)) (k : string) (v : A) :
  ~ In k (obj_keys pre) -> obj_lookup (pre ++ (k, v) :: post) k = Some v.
Proof.
  induction pre as [|[k0 v0] pre IH]; simpl; intros Hnot.
  - now rewrite String.eqb_refl.
  - destruct (String.eqb_spec k0 k) as [->|Hne]; [tauto|]. apply IH. tauto.
Qed.

Section Survey.
Variable env : Imports.
Variable answers : list (string * string).


Lemma survey_keys (keys : list string) (data : JsObject) (k : string) :
  In k (obj_keys (List.fold_left (surveyAssign env answers) keys data)) <->
  In k (obj_keys data) \/ exists key, In key keys /\ k = snakeCase env key.
Proof.
  revert data. induction keys as [|key keys IH]; intros data; simpl.
  - split; [auto | intros [H|(key & [] & _)]; exact H].
  - rewrite IH. unfold surveyAssign. rewrite obj_keys_set. split.
    + intros [[->|H]|(key' & Hin & ->)]; eauto.
    + intros [H|(key' & [->|Hin] & ->)]; eauto.
Qed.

Lemma survey_lookup_other (keys : list string) (data : JsObject) (k : string) :
  (forall key, In key keys -> snakeCase env key <> k) ->
  obj_lookup (List.fold_left (surveyAssign env answers) keys data) k = obj_lookup data k.
Proof.
  revert data. induction keys as [|key keys IH]; intros data Hother; simpl; [reflexivity|].
  rewrite IH by (intros key' Hin; apply Hother; now right).
  unfold surveyAssign. rewrite obj_lookup_set.
  destruct (String.eqb_spec (snakeCase env key) k) as [Heq|]; [|reflexivity].
  exfalso. apply (Hother key); [now left | exact Heq].
Qed.

Lemma survey_lookup_last (before after : list string) (key : string) (data : JsObject) :
  (forall key', In key' after -> snakeCase env key' <> snakeCase env key) ->
  obj_lookup (List.fold_left (surveyAssign env answers) (before ++ key :: after) data) (snakeCase env key) =
  Some (js_string (obj_lookup answers key)).
Proof.
  intros Hafter. rewrite List.fold_left_app. simpl.
  rewrite survey_lookup_other by exact Hafter.
  unfold surveyAssign at 1. rewrite obj_lookup_set. now rewrite String.eqb_refl.
Qed.

End Survey.

(** C7, as the code has it. [onPersonalizationSurveySubmitted] tracks the
    event 'User responded to personalization questions' with a payload
    whose keys are exactly [user_id] plus the snake_case conversion of each
    key of [answers]; a converted key maps to the unchanged value of the
    last key of [answers] that converts to it, hence to the value of every
    key that no later key shares its conversion with; [user_id] maps to
    [userId] when no key of [answers] converts to [user_id]. *)
Theorem onPersonalizationSurveySubmitted_payload (env : Imports) (userId : string)
    (answers : list (string * string)) (w : World) :
  NoDup (obj_keys answers) ->
  exists properties : JsObject,
    calls_of (onPersonalizationSurveySubmitted env userId answers w) w =
      [EvTrack "User responded to personalization questions" properties] /\
    fst (onPersonalizationSurveySubmitted env userId answers w) =
      track (telemetry (this w)) "User responded to personalization questions" properties /\
    (forall k, In k (obj_keys properties) <->
       k = "user_id" \/ exists key, In key (obj_keys answers) /\ k = snakeCase env key) /\
    (forall before key value after,
       answers = before ++ (key, value) :: after ->
       (forall key', In key' (obj_keys after) -> snakeCase env key' <> snakeCase env key) ->
       obj_get properties (snakeCase env key) = JStr value) /\
    ((forall key, In key (obj_keys answers) -> snakeCase env key <> "user_id") ->
     obj_get properties "user_id" = JStr userId).
Proof.
  intros Hnodup. exists (personalizationSurveyData env userId answers).
  unfold onPersonalizationSurveySubmitted. rewrite async_track_run. cbn [fst snd].
  split; [now apply calls_of_trace|]. split; [reflexivity|].
  unfold personalizationSurveyData. split; [|split].
  - intros k. rewrite survey_keys. simpl. intuition.
  - intros before key value after -> Hafter.
    unfold obj_get, obj_keys. rewrite List.map_app. simpl.
    rewrite survey_lookup_last.
    + rewrite obj_lookup_middle; [reflexivity|].
      unfold obj_keys in Hnodup. rewrite List.map_app in Hnodup. simpl in Hnodup.
      apply NoDup_app in Hnodup as (_ & Hdisj & _).
      intros Hin. apply (Hdisj key); [now apply list_elem_of_In | left].
    + exact Hafter.
  - intros Hother. unfold obj_get. rewrite survey_lookup_other by exact Hother.
    reflexivity.
Qed.


(** What lines 124 to 168 leave in the properties of a run. *)
Lemma executionProperties_fields (env : Imports) (self : InternalHooksClass)
    (workflow : IWorkflowBase) (id : JsId) (runData : IRun) (userId : option string) :
  let properties := fst (executionProperties env self workflow id (Some runData) userId) in
  (success properties = true <-> finished runData = Some true) /\
  (is_manual properties = true <-> mode runData = "manual") /\
  execution_mode properties = Some (mode runData) /\
  workflow_id properties = id_toString id /\
  (error_message properties <> None ->
     success properties = false /\ result_error (resultData (run_data runData)) <> None) /\
  (error_node_type properties <> None ->
     success properties = false /\ result_error (resultData (run_data runData)) <> None).
Proof.
  unfold executionProperties, runProperties, errorProperties, initialProperties.
  rewrite <- (String.eqb_eq (mode runData) "manual").
  destruct (truthy_string userId), (finished runData) as [[|]|],
    (result_error (resultData (run_data runData))) as [error|],
    (String.eqb (mode runData) "manual"); cbn;
    repeat case_match; simplify_eq; cbn;
    repeat split; intros; try congruence; try discriminate.
Qed.


Lemma logWebhookHeaders_run (env : Imports) (runData : IRun) (r : INodesGraphResult)
    (w : World) :
  exists evs,
    this (snd (logWebhookHeaders runData r w)) = this w /\
    trace (snd (logWebhookHeaders runData r w)) = trace w ++ evs /\
    Forall (fun ev => is_trackWorkflowExecution ev = false) evs /\
    omap (promise_of_call env (this w)) evs = [].
Proof.
  unfold logWebhookHeaders, webhookMainData, console_log, bind, emit, throw, ret.
  repeat case_match; simplify_eq; cbn [this trace snd fst];
    rewrite <- ?app_assoc; eexists; (split; [reflexivity|]);
    (split; [first [reflexivity | symmetry; apply app_nil_r]|]);
    split; repeat constructor.
Qed.

Lemma manualExecution_run env self workflow runData properties r promises (w : World) :
  exists evs,
    collects env promises w
      (manualExecution env self workflow runData properties r promises w) evs.
Proof.
  unfold manualExecution, collects.
  destruct (if negb _ then _ else _) as [m r'].
  destruct (truthy_string _) as [destinationNode|].
  - unfold telemetry_track, bind, emit, get_this, ret. cbn [this trace snd fst].
    eexists. split; [reflexivity|]. split; [reflexivity|].
    split; [repeat constructor | reflexivity].
  - unfold telemetry_track, console_log, bind, emit, get_this, ret.
    cbn [this trace snd fst].
    set (w1 := {| this := this w; trace := trace w ++ [EvConsoleLog (JStr "A")] |}).
    destruct (logWebhookHeaders_run env runData r' w1) as (evs & Hthis & Htrace & Hevs & Hnone).
    destruct (logWebhookHeaders runData r' w1) as [[[]|e] w2]; cbn [this trace snd fst] in *.
    + rewrite Htrace, Hthis. subst w1. cbn [this trace] in *.
      exists ([EvConsoleLog (JStr "A")] ++ evs ++ [EvTrack "Manual workflow exec finished" m]).
      split; [reflexivity|]. split; [now rewrite <- !app_assoc|].
      split.
      * apply Forall_app. split; [repeat constructor|].
        apply Forall_app. split; [exact Hevs | repeat constructor].
      * rewrite !omap_app, Hnone. reflexivity.
    + rewrite Htrace, Hthis. subst w1. cbn [this trace].
      exists ([EvConsoleLog (JStr "A")] ++ evs).
      split; [reflexivity|]. split; [now rewrite <- !app_assoc|].
      split; [|exact I].
      apply Forall_app. split; [repeat constructor | exact Hevs].
Qed.


Lemma async_get_this (k : InternalHooksClass -> M Promise) (w : World) :
  async (let* self := get_this in k self) w = async (k (this w)) w.
Proof. reflexivity. Qed.

(** Lines 226 to 230, after a computation [m] that collects promises. *)
Lemma promise_all_run (env : Imports) (executionId : string)
    (properties : IExecutionTrackProperties) (m : M (list Promise)) (w : World)
    (evs : list Event) :
  collects env [Promise_resolve] w (m w) evs ->
  let r :=
    async (
      let* promises := m in
      let* p1 := persistBinaryData env executionId in
      let* p2 := telemetry_trackWorkflowExecution properties in
      ret (Promise_then_void (Promise_all (promises ++ [p1; p2])))) w in
  match fst (m w) with
  | Normal _ =>
      calls_of r w =
        evs ++ [EvPersistBinaryData executionId; EvTrackWorkflowExecution properties] /\
      fst r =
        Promise_then_void
          (Promise_all (Promise_resolve :: omap (promise_of_call env (this w)) (calls_of r w)))
  | Throw e => calls_of r w = evs /\ fst r = Promise_reject e
  end.
Proof.
  intros (Hthis & Htrace & _ & Hps).
  unfold async, persistBinaryData, telemetry_trackWorkflowExecution, bind, emit, get_this, ret.
  destruct (m w) as [[promises|e] w1]; cbn [this trace fst snd] in *.
  - assert (Hcalls : forall p,
              calls_of (p, {| this := this w1;
                              trace := (trace w1 ++ [EvPersistBinaryData executionId]) ++
                                       [EvTrackWorkflowExecution properties] |}) w
              = evs ++ [EvPersistBinaryData executionId; EvTrackWorkflowExecution properties]).
    { intros p. apply calls_of_trace. cbn [snd trace]. rewrite Htrace.
      now rewrite <- !app_assoc. }
    rewrite Hcalls. split; [reflexivity|].
    rewrite Hps, Hthis, omap_app. reflexivity.
  - split; [|reflexivity]. now apply calls_of_trace.
Qed.

Lemma collects_ret (env : Imports) (promises : list Promise) (w : World) :
  collects env promises w (ret promises w) [].
Proof.
  unfold collects, ret. cbn. rewrite !app_nil_r. repeat split. constructor.
Qed.

(** The two ways [onWorkflowPostExecute] ends for a workflow with a truthy
    id: it reaches [Promise.all] after the calls [evs], or the inspection of
    the webhook data of a manual run throws. *)
Lemma onWorkflowPostExecute_run (env : Imports) (executionId : string)
    (workflow : IWorkflowBase) (id : JsId) (runData : option IRun) (userId : option string)
    (w : World) :
  wf_id workflow = Some id -> truthy_id (Some id) = true ->
  let properties := fst (executionProperties env (this w) workflow id runData userId) in
  let r := onWorkflowPostExecute env executionId workflow runData userId w in
  exists evs,
    Forall (fun ev => is_trackWorkflowExecution ev = false) evs /\
    ((calls_of r w =
        evs ++ [EvPersistBinaryData executionId; EvTrackWorkflowExecution properties] /\
      fst r =
        Promise_then_void
          (Promise_all (Promise_resolve :: omap (promise_of_call env (this w)) (calls_of r w))))
     \/ (calls_of r w = evs /\ (exists e, fst r = Promise_reject e) /\
         is_manual properties = true /\ runData <> None)).
Proof.
  intros Hid Htruthy. cbv zeta.
  unfold onWorkflowPostExecute. rewrite Hid, Htruthy. cbn [negb].
  rewrite async_get_this.
  destruct (executionProperties env (this w) workflow id runData userId)
    as [properties nodeGraphResult]. cbn [fst].
  destruct runData as [runData|].
  - destruct (is_manual properties) eqn:Hmanual.
    + destruct (manualExecution_run env (this w) workflow runData properties
                  nodeGraphResult [Promise_resolve] w) as (evs & Hcollects).
      pose proof (promise_all_run env executionId properties _ w evs Hcollects) as Hrun.
      cbv zeta in Hrun. exists evs. split; [apply Hcollects|].
      destruct (fst (manualExecution env (this w) workflow runData properties
                       nodeGraphResult [Promise_resolve] w)) as [promises|e].
      * left. exact Hrun.
      * right. destruct Hrun as [Hcalls Hfst]. repeat split; eauto.
    + pose proof (promise_all_run env executionId properties _ w []
                    (collects_ret env [Promise_resolve] w)) as Hrun.
      exists []. split; [constructor|]. left. exact Hrun.
  - pose proof (promise_all_run env executionId properties _ w []
                  (collects_ret env [Promise_resolve] w)) as Hrun.
    exists []. split; [constructor|]. left. exact Hrun.
Qed.


(** [Promise.all] rejects exactly when one of the promises rejects, and
    fulfils exactly when all of them fulfil. *)
Lemma first_rejection_exists (ps : list Promise) :
  match first_rejection ps with
  | Some _ => existsb is_rejected ps = true
  | None => existsb is_rejected ps = false
  end.
Proof.
  induction ps as [|[|t [|e]] ps IH]; simpl; try exact IH; [reflexivity|].
  destruct (first_rejection ps) as [[t' e']|]; [destruct (t' <? t)%nat|]; reflexivity.
Qed.

Lemma all_fulfilled_forall (ps : list Promise) :
  match all_fulfilled_at ps with
  | Some _ => forallb is_fulfilled ps = true
  | None => forallb is_fulfilled ps = false
  end.
Proof.
  induction ps as [|[|t [|e]] ps IH]; simpl; try reflexivity.
  destruct (all_fulfilled_at ps); exact IH.
Qed.

Lemma forallb_fulfilled_not_rejected (ps : list Promise) :
  forallb is_fulfilled ps = true -> existsb is_rejected ps = false.
Proof.
  induction ps as [|[|t [|e]] ps IH]; simpl; auto; discriminate.
Qed.

Lemma Promise_all_rejected (ps : list Promise) :
  is_rejected (Promise_all ps) = existsb is_rejected ps.
Proof.
  unfold Promise_all. pose proof (first_rejection_exists ps) as H.
  destruct (first_rejection ps) as [[t e]|]; [now rewrite H|].
  rewrite H. destruct (all_fulfilled_at ps); reflexivity.
Qed.

Lemma Promise_all_fulfilled (ps : list Promise) :
  is_fulfilled (Promise_all ps) = forallb is_fulfilled ps.
Proof.
  unfold Promise_all.
  pose proof (first_rejection_exists ps) as Hr.
  pose proof (all_fulfilled_forall ps) as Hf.
  destruct (first_rejection ps) as [[t e]|].
  - cbn. destruct (forallb is_fulfilled ps) eqn:E; [|reflexivity].
    apply forallb_fulfilled_not_rejected in E. congruence.
  - destruct (all_fulfilled_at ps); now rewrite Hf.
Qed.

Lemma Promise_then_void_id (p : Promise) : Promise_then_void p = p.
Proof. destruct p as [|t [|e]]; reflexivity. Qed.


Lemma not_in_none (evs : list Event) (properties : IExecutionTrackProperties) :
  Forall (fun ev => is_trackWorkflowExecution ev = false) evs ->
  ~ In (EvTrackWorkflowExecution properties) evs.
Proof.
  intros Hevs Hin. rewrite Forall_forall in Hevs.
  apply list_elem_of_In, Hevs in Hin. discriminate.
Qed.

(** C1, as the code has it. For a workflow with a truthy id,
    [onWorkflowPostExecute] that reaches its call to
    [telemetry.trackWorkflowExecution] returns [Promise.all] over
    [Promise.resolve()] and the promises that [telemetry.track],
    [persistBinaryDataForExecutionId] and [trackWorkflowExecution] returned:
    its promise rejects exactly when one of them rejects and fulfils exactly
    when they all fulfil. A failure of a collaborator goes to the caller. *)
Theorem onWorkflowPostExecute_passes_rejections (env : Imports) (executionId : string)
    (workflow : IWorkflowBase) (runData : option IRun) (userId : option string) (w : World)
    (properties : IExecutionTrackProperties) :
  truthy_id (wf_id workflow) = true ->
  In (EvTrackWorkflowExecution properties)
     (calls_of (onWorkflowPostExecute env executionId workflow runData userId w) w) ->
  let r := onWorkflowPostExecute env executionId workflow runData userId w in
  let promises := omap (promise_of_call env (this w)) (calls_of r w) in
  fst r = Promise_then_void (Promise_all (Promise_resolve :: promises)) /\
  is_rejected (fst r) = existsb is_rejected promises /\
  is_fulfilled (fst r) = forallb is_fulfilled promises.
Proof.
  intros Htruthy Hin. cbv zeta.
  destruct (wf_id workflow) as [id|] eqn:Hid; [|discriminate].
  destruct (onWorkflowPostExecute_run env executionId workflow id runData userId w Hid Htruthy)
    as (evs & Hevs & [[Hcalls Hfst]|(Hcalls & _)]).
  - split; [exact Hfst|]. rewrite Hfst, Promise_then_void_id.
    rewrite Promise_all_rejected, Promise_all_fulfilled. split; reflexivity.
  - rewrite Hcalls in Hin. now apply not_in_none in Hin.
Qed.



End HookProperties.

(** ** The hooks on concrete runs *)

Section HookExamples.
Import InternalHooks Examples.

Example onWorkflowPostExecute_trigger_run :
  onWorkflowPostExecute exampleImports "41" exampleWorkflow (Some triggerRun) (Some "u1") okWorld
  = (Settled 10 Fulfilled,
     {| this := constructor okTelemetry "0.181.0" (NodeTypesRef 0);
        trace :=
          [ EvPersistBinaryData "41";
            EvTrackWorkflowExecution
              {| workflow_id := "12"; is_manual := false; version_cli := "0.181.0";
                 success := true; user_id := Some "u1"; execution_mode := Some "trigger";
                 error_message := None; error_node_type := None; node_graph := None;
                 node_graph_string := None; error_node_id := None |} ] |}).
Proof. vm_compute. reflexivity. Qed.

(** C1, counterexample. The analytics client fails to record the
    execution: the promise of [onWorkflowPostExecute] rejects with that
    failure, which is neither swallowed nor logged. *)
Lemma onWorkflowPostExecute_rejects :
  fst (onWorkflowPostExecute exampleImports "41" exampleWorkflow (Some triggerRun) None
         failingWorld)
    = Settled 10 (Rejected "Error: connect ECONNREFUSED") /\
  calls_of (onWorkflowPostExecute exampleImports "41" exampleWorkflow (Some triggerRun) None
              failingWorld) failingWorld
    = [ EvPersistBinaryData "41";
        EvTrackWorkflowExecution
          {| workflow_id := "12"; is_manual := false; version_cli := "0.181.0";
             success := true; user_id := None; execution_mode := Some "trigger";
             error_message := None; error_node_type := None; node_graph := None;
             node_graph_string := None; error_node_id := None |} ].
Proof. split; vm_compute; reflexivity. Qed.

(** A manual run of the whole workflow whose webhook node has no entry in
    [runData]: line 210 throws, the promise rejects, and neither
    [persistBinaryDataForExecutionId] nor [trackWorkflowExecution] is
    called. *)
Example onWorkflowPostExecute_webhook_entry_absent :
  onWorkflowPostExecute exampleImports "41" exampleWorkflow
    (Some manualRunWithoutWebhookData) None okWorld
  = (Promise_reject "TypeError: Cannot read properties of undefined (reading '0')",
     {| this := constructor okTelemetry "0.181.0" (NodeTypesRef 0);
        trace := [EvConsoleLog (JStr "A"); EvConsoleLog (JStr "B")] |}).
Proof. vm_compute. reflexivity. Qed.

Lemma onWorkflowPostExecute_passes_rejections_witness :
  is_rejected
    (fst (onWorkflowPostExecute exampleImports "41" exampleWorkflow (Some triggerRun) None
            failingWorld))
  = existsb is_rejected
      (omap (promise_of_call exampleImports (this failingWorld))
         (calls_of (onWorkflowPostExecute exampleImports "41" exampleWorkflow
                      (Some triggerRun) None failingWorld) failingWorld)).
Proof.
  refine (proj1 (proj2 (onWorkflowPostExecute_passes_rejections exampleImports "41"
                          exampleWorkflow (Some triggerRun) None failingWorld _ eq_refl _))).
  right. left. reflexivity.
Defined.


Lemma onWorkflowPostExecute_without_id_witness :
  onWorkflowPostExecute exampleImports "41" unsavedWorkflow (Some triggerRun) None okWorld
  = (Promise_resolve, okWorld).
Proof.
  exact (proj1 (onWorkflowPostExecute_without_id exampleImports "41" unsavedWorkflow
                  (Some triggerRun) None okWorld eq_refl)).
Defined.

(** C7, counterexample. Two keys of [answers] convert to [company_size]:
    the payload has that key once, with the value of the last of the two,
    so the converted key of [companySize] does not map to the value of
    [companySize]. *)
Lemma onPersonalizationSurveySubmitted_key_clash :
  obj_lookup clashingAnswers "companySize" = Some "20-99" /\
  snakeCase exampleImports "companySize" = "company_size" /\
  calls_of (onPersonalizationSurveySubmitted exampleImports "u1" clashingAnswers okWorld)
    okWorld
  = [ EvTrack "User responded to personalization questions"
        [("user_id", JStr "u1"); ("company_size", JStr "1000+")] ] /\
  obj_get (personalizationSurveyData exampleImports "u1" clashingAnswers)
    (snakeCase exampleImports "companySize") <> JStr "20-99".
Proof.
  split; [reflexivity|]. split; [reflexivity|]. split; [reflexivity|].
  vm_compute. discriminate.
Qed.

Lemma onPersonalizationSurveySubmitted_payload_witness :
  exists properties : JsObject,
    calls_of (onPersonalizationSurveySubmitted exampleImports "u1" surveyAnswers okWorld)
      okWorld
    = [EvTrack "User responded to personalization questions" properties] /\
    obj_get properties "coding_skill" = JStr "5" /\
    obj_get properties "company_size" = JStr "20-99" /\
    obj_get properties "user_id" = JStr "u1".
Proof.
  destruct (onPersonalizationSurveySubmitted_payload exampleImports "u1" surveyAnswers okWorld)
    as (properties & Hcalls & _ & _ & Hvalue & Huser).
  { apply (bool_decide_unpack _). vm_compute. exact I. }
  exists properties. split; [exact Hcalls|]. split; [|split].
  - apply (Hvalue [] "codingSkill" "5" [("companySize", "20-99")] eq_refl).
    intros key' [<-|[]]. vm_compute. discriminate.
  - apply (Hvalue [("codingSkill", "5")] "companySize" "20-99" [] eq_refl).
    intros key' [].
  - apply Huser. intros key [<-|[<-|[]]]; vm_compute; discriminate.
Defined.

Example onWorkflowPostExecute_manual_run :
  calls_of (onWorkflowPostExecute exampleImports "41" exampleWorkflow
              (Some manualRunWithWebhookData) None okWorld) okWorld
  = [ EvConsoleLog (JStr "A");
      EvConsoleLog (JStr "B");
      EvConsoleLog (JStr "C");
      EvConsoleLog (JObj [("host", JStr "n8n.example")]);
      EvTrack "Manual workflow exec finished"
        [ ("workflow_id", JNum 12);
          ("status", JStr "success");
          ("error_message", JUndefined);
          ("error_node_type", JUndefined);
          ("node_graph", JGraph (nodeGraph exampleGraph));
          ("node_graph_string", JStr "{}");
          ("error_node_id", JUndefined) ];
      EvPersistBinaryData "41";
      EvTrackWorkflowExecution
        {| workflow_id := "12"; is_manual := true; version_cli := "0.181.0";
           success := true; user_id := None; execution_mode := Some "manual";
           error_message := None; error_node_type := None; node_graph := None;
           node_graph_string := None; error_node_id := None |} ].
Proof. vm_compute. reflexivity. Qed.

Example onWorkflowPostExecute_failed_node_run :
  calls_of (onWorkflowPostExecute exampleImports "41" exampleWorkflow
              (Some failedNodeRun) None okWorld) okWorld
  = [ EvTrack "Manual node exec finished"
        [ ("workflow_id", JNum 12);
          ("status", JStr "failed");
          ("error_message", JStr "Request failed");
          ("error_node_type", JStr "n8n-nodes-base.webhook");
          ("node_graph", JGraph (nodeGraph exampleGraph));
          ("node_graph_string", JStr "{}");
          ("error_node_id", JStr "0");
          ("node_type", JStr "n8n-nodes-base.webhook");
          ("node_id", JStr "0") ];
      EvPersistBinaryData "41";
      EvTrackWorkflowExecution
        {| workflow_id := "12"; is_manual := true; version_cli := "0.181.0";
           success := false; user_id := None; execution_mode := Some "manual";
           error_message := Some "Request failed";
           error_node_type := Some "n8n-nodes-base.webhook";
           node_graph := Some (nodeGraph exampleGraph);
           node_graph_string := Some "{}"; error_node_id := Some "0" |} ].
Proof. vm_compute. reflexivity. Qed.

Example onN8nStop_answered :
  fst (onN8nStop okWorld) = Settled 10 Fulfilled.
Proof. reflexivity. Qed.

Example onN8nStop_unanswered :
  fst (onN8nStop (initialWorld silentTelemetry "0.181.0" (NodeTypesRef 0)))
  = Settled 3000 Fulfilled.
Proof. reflexivity. Qed.

Example snakeCase_keys :
  List.map ChangeCase.snakeCase
    ["codingSkill"; "companySize"; "company_size"; "otherWorkArea"; "XMLHttpRequest"]
  = ["coding_skill"; "company_size"; "company_size"; "other_work_area"; "xml_http_request"].
Proof. reflexivity. Qed.

End HookExamples.

(** * Further properties of the pin-data mixin *)

Section PinDataMore.
Import JsString PinData.

Lemma count_newlines_take_le (n : nat) (s : string) :
  (count_newlines (take n s) <= count_newlines s)%nat.
Proof.
  revert s. induction n as [|n IH]; intros [|c s]; simpl; try lia.
  specialize (IH s). destruct (Ascii.eqb c newline); lia.
Qed.

Lemma take_all (n : nat) (s : string) :
  (String.length s <= n)%nat -> take n s = s.
Proof.
  revert s. induction n as [|n IH]; intros [|c s]; simpl; intros Hlen;
    try reflexivity; try lia.
  f_equal. apply IH. lia.
Qed.

Lemma count_newlines_take_mono (n m : nat) (s : string) :
  (n <= m)%nat -> (count_newlines (take n s) <= count_newlines (take m s))%nat.
Proof.
  revert m s. induction n as [|n IH]; intros m s Hnm; simpl; [lia|].
  destruct m as [|m]; [lia|]. destruct s as [|c s]; simpl; [lia|].
  specialize (IH m s ltac:(lia)). destruct (Ascii.eqb c newline); lia.
Qed.

(** What [trim] leaves does not start with white space. *)
Lemma trim_start_head (s : string) :
  match trim_start s with
  | EmptyString => True
  | String c _ => is_space c = false
  end.
Proof.
  induction s as [|c s IH]; simpl; [exact I|].
  destruct (is_space c) eqn:E; [exact IH | exact E].
Qed.

Lemma trim_end_head (c : ascii) (s : string) :
  is_space c = false -> exists r, trim_end (String c s) = String c r.
Proof.
  intros Hc. simpl. rewrite Hc. destruct (trim_end s); eauto.
Qed.

Lemma trim_head (s : string) :
  trim s = EmptyString \/ exists c r, trim s = String c r /\ is_space c = false.
Proof.
  unfold trim. pose proof (trim_start_head s) as H.
  destruct (trim_start s) as [|c t]; [left; reflexivity | right].
  destruct (trim_end_head c t H) as [r Hr]. eauto.
Qed.

(** On a code unit of ASCII that is not white space, [toUpperCase] gives
    one code unit of ASCII again, which is neither a lower-case letter nor
    white space. *)
Lemma toUpperCase1_ascii (c : ascii) :
  (Ascii.nat_of_ascii c <? 128)%nat = true -> is_space c = false ->
  let n := Ascii.nat_of_ascii (upper_char c) in
  (String.eqb (toUpperCase1 (String c EmptyString)) (String (upper_char c) EmptyString)
   && (n <? 128)%nat
   && negb ((97 <=? n)%nat && (n <=? 122)%nat)
   && negb ((9 <=? n)%nat && (n <=? 13)%nat)
   && negb (n =? 32)%nat)%bool = true.
Proof.
  destruct c as [[] [] [] [] [] [] [] []]; vm_compute; intros Hascii Hspace;
    first [discriminate Hascii | discriminate Hspace | reflexivity].
Qed.

(** X1. [isValidPinData(data)] returns [true] exactly when [JSON.parse]
    succeeds and the data fits; it shows one error when it returns [false]
    and none when it returns [true], and reads the store at most once. *)
Theorem isValidPinData_verdict (this : Context) (data : string) :
  (fst (isValidPinData this data) = true <->
     JSON_parse this data = Parsed /\
     pinDataSize this + stringSizeInBytes this data <= MAX_WORKFLOW_PINNED_DATA_SIZE this) /\
  List.length (errors_shown (snd (isValidPinData this data))) =
    (if fst (isValidPinData this data) then 0 else 1)%nat /\
  (List.length (List.filter is_store_getter (snd (isValidPinData this data))) <= 1)%nat.
Proof.
  unfold isValidPinData, isValidPinDataJSON, isValidPinDataSize.
  destruct (JSON_parse this data) as [|msg]; cbn.
  - destruct (Z.gtb_spec (pinDataSize this + stringSizeInBytes this data)
                (MAX_WORKFLOW_PINNED_DATA_SIZE this)) as [Hgt|Hle]; cbn.
    + split; [split; [discriminate | intros [_ Hfit]; lia] | split; [reflexivity | lia]].
    + split; [split; [intros _; split; [reflexivity | lia] | reflexivity]
             | split; [reflexivity | lia]].
  - split; [split; [discriminate | intros [Hp _]; discriminate] | split; [reflexivity | lia]].
Qed.

(** X2. When the message of the parse error carries a position, the line
    shown is at least 1 and at most one more than the number of newlines
    of [data]; a position at or past the end of [data] gives the last
    line, and data without newline gives line 1. *)
Theorem isValidPinDataJSON_line_bounds (this : Context) (data errorMessage ds : string) :
  JSON_parse this data = SyntaxError errorMessage ->
  match_literal_digits "at position " errorMessage = Some ds ->
  exists (shown title : string) (line : nat),
    isValidPinDataJSON this data = (false, [ShowError shown title]) /\
    ends_with (", line " +:+ pretty line +:+ ".") shown = true /\
    (1 <= line <= 1 + count_newlines data)%nat /\
    ((String.length data <= parseInt10 ds)%nat -> line = (1 + count_newlines data)%nat) /\
    (count_newlines data = 0%nat -> line = 1%nat).
Proof.
  intros Hparse Hmatch.
  exists (pinDataErrorMessage data errorMessage), (baseText this "runData.editOutputInvalid"),
    (count_newlines (take (parseInt10 ds) data) + 1)%nat.
  pose proof (count_newlines_take_le (parseInt10 ds) data) as Hle.
  split; [unfold isValidPinDataJSON; now rewrite Hparse|].
  split.
  - pose proof (pinDataErrorMessage_line data errorMessage ds Hmatch) as H.
    unfold lineSuffix in H. now rewrite append_assoc in H.
  - split; [lia|]. split; [|lia].
    intros Hlen. rewrite take_all by exact Hlen. lia.
Qed.

(** X3. For an error message of ASCII text, the message shown is never
    empty and starts with a character of ASCII that is neither white space
    nor a lower-case letter, also when nothing is left of the message after
    the removal of [JSON.parse:] and [of the JSON data]. *)
Theorem pinDataErrorMessage_head (data errorMessage : string) :
  (forall c, In c (String.list_ascii_of_string errorMessage) ->
             (Ascii.nat_of_ascii c < 128)%nat) ->
  exists c rest,
    pinDataErrorMessage data errorMessage = String c rest /\
    (Ascii.nat_of_ascii c < 128)%nat /\
    ~ (97 <= Ascii.nat_of_ascii c <= 122)%nat /\
    ~ (9 <= Ascii.nat_of_ascii c <= 13)%nat /\
    Ascii.nat_of_ascii c <> 32%nat.
Proof.
  intros Hascii. unfold pinDataErrorMessage.
  pose proof (trim_chars (remove_all "JSON.parse:" "of the JSON data" errorMessage)) as Hchars.
  destruct (trim_head (remove_all "JSON.parse:" "of the JSON data" errorMessage))
    as [Hempty|(c & r & Hhead & Hc)].
  - rewrite Hempty. cbn [charAt0 toUpperCase1 drop].
    destruct (match_literal_digits "at position " errorMessage) as [ds|];
      eexists _, _; (split; [reflexivity|]);
      rewrite <- Nat.ltb_lt, <- !Nat.leb_le, <- Nat.eqb_neq; vm_compute; intuition discriminate.
  - rewrite Hhead in Hchars |- *.
    assert (Hlt : (Ascii.nat_of_ascii c < 128)%nat).
    { apply Hascii. unfold remove_all in Hchars.
      eapply remove_all_from_chars, Hchars. now left. }
    pose proof (toUpperCase1_ascii c (proj2 (Nat.ltb_lt _ _) Hlt) Hc) as Hupper.
    cbv zeta in Hupper. rewrite !andb_true_iff, !negb_true_iff in Hupper.
    destruct Hupper as ((((Hup & Hn) & Hlower) & Hspace) & H32).
    apply String.eqb_eq in Hup. apply Nat.ltb_lt in Hn. apply Nat.eqb_neq in H32.
    cbn [charAt0 drop]. rewrite Hup.
    destruct (match_literal_digits "at position " errorMessage) as [ds|];
      eexists _, _; (split; [reflexivity|]);
      (split; [exact Hn|]);
      (split; [intros [H1 H2]; apply Nat.leb_le in H1, H2; now rewrite H1, H2 in Hlower|]);
      (split; [intros [H1 H2]; apply Nat.leb_le in H1, H2; now rewrite H1, H2 in Hspace
              | exact H32]).
Qed.

(** X4. [hasPinData] is true exactly when [pinData] is an object, that is
    when there is a node and the store has pinned data under its name;
    without a node [pinData] is [false], not [undefined], and [hasPinData]
    is false all the same. *)
Theorem hasPinData_iff_pinned {D : Type} (this : NodeContext D) :
  (hasPinData this = true <-> exists d, pinData this = PinObject d) /\
  (hasPinData this = true <->
     exists n d, node this = Some n /\ pinDataByNodeName this (node_ui_name n) = Some d) /\
  (node this = None -> pinData this = PinFalse /\ hasPinData this = false).
Proof.
  unfold hasPinData, pinData.
  destruct (node this) as [n|].
  - destruct (pinDataByNodeName this (node_ui_name n)) as [d|] eqn:Hstore.
    + repeat split; try discriminate; eauto.
    + repeat split; try discriminate.
      * intros [d Hd]. discriminate.
      * intros (n' & d & Hn & Hd). congruence.
  - repeat split; try discriminate.
    + intros [d Hd]. discriminate.
    + intros (n' & d & Hn & _). discriminate.
Qed.

Lemma isValidPinDataJSON_line_bounds_witness :
  exists (shown title : string) (line : nat),
    isValidPinDataJSON Examples.pinDataExample Examples.pinDataExampleText
      = (false, [ShowError shown title]) /\
    ends_with (", line " +:+ pretty line +:+ ".") shown = true /\
    (1 <= line <= 2)%nat.
Proof.
  destruct (isValidPinDataJSON_line_bounds Examples.pinDataExample
              Examples.pinDataExampleText "Unexpected token a in JSON at position 2" "2"
              eq_refl eq_refl) as (shown & title & line & H1 & H2 & H3 & _).
  exists shown, title, line. split; [exact H1|]. split; [exact H2 | exact H3].
Defined.

Example toUpperCase1_latin1 :
  toUpperCase1 (String (Ascii.ascii_of_nat 233) EmptyString)
    = String (Ascii.ascii_of_nat 201) EmptyString /\
  toUpperCase1 (String (Ascii.ascii_of_nat 223) EmptyString) = "SS" /\
  toUpperCase1 (String (Ascii.ascii_of_nat 247) EmptyString)
    = String (Ascii.ascii_of_nat 247) EmptyString /\
  toUpperCase1 "u" = "U".
Proof. repeat split. Qed.

Lemma pinDataErrorMessage_head_witness :
  exists rest,
    pinDataErrorMessage "x"
      "JSON.parse: unexpected character at line 1 column 1 of the JSON data"
    = String "U"%char rest.
Proof.
  destruct (pinDataErrorMessage_head "x"
              "JSON.parse: unexpected character at line 1 column 1 of the JSON data")
    as (c & rest & Hshown & _).
  - intros c Hin. apply Nat.ltb_lt.
    revert c Hin. apply List.forallb_forall. vm_compute. reflexivity.
  - exists rest. rewrite Hshown. vm_compute in Hshown. now injection Hshown as <- _.
Defined.

End PinDataMore.

(** * Further properties of the telemetry hooks *)

Section HooksMore.
Import InternalHooks.
Local Open Scope hook_scope.

(** Dictionaries: a spread copies every key, and a key that is not there
    reads as [undefined]. *)
Lemma obj_lookup_absent {A : Type} (o : list (string * A)) (k : string) :
  ~ In k (obj_keys o) -> obj_lookup o k = None.
Proof.
  induction o as [|[k0 v0] o IH]; simpl; intros Hnot; [reflexivity|].
  destruct (String.eqb_spec k0 k) as [->|Hne]; [tauto|]. apply IH. tauto.
Qed.

Lemma obj_lookup_assign {A : Type} (src target : list (string * A)) (k : string) :
  NoDup (obj_keys src) ->
  obj_lookup (obj_assign target src) k =
  match obj_lookup src k with
  | Some v => Some v
  | None => obj_lookup target k
  end.
Proof.
  unfold obj_assign. revert target.
  induction src as [|[k0 v0] src IH]; intros target Hnodup; simpl; [reflexivity|].
  simpl in Hnodup. apply NoDup_cons in Hnodup as [Hfresh Hnodup].
  rewrite IH by exact Hnodup. rewrite obj_lookup_set.
  destruct (String.eqb_spec k0 k) as [->|Hne]; [|reflexivity].
  rewrite obj_lookup_absent; [reflexivity|].
  intros Hin. apply Hfresh. now apply list_elem_of_In.
Qed.

Lemma obj_keys_assign {A : Type} (src target : list (string * A)) (k : string) :
  In k (obj_keys (obj_assign target src)) <-> In k (obj_keys target) \/ In k (obj_keys src).
Proof.
  unfold obj_assign. revert target.
  induction src as [|[k0 v0] src IH]; intros target; simpl; [tauto|].
  rewrite IH, obj_keys_set. simpl. intuition.
Qed.

(** X5. [onUserDeletion] makes one [telemetry.track] call, for the event
    'User deleted user'. Its payload has the keys of [userDeletionData] plus
    [user_id] and [public_api]; these two hold the arguments [userId] and
    [publicApi], whatever [userDeletionData] has under them, and every
    other key holds the value of [userDeletionData]. *)
Theorem onUserDeletion_payload (userId : string) (userDeletionData : JsObject)
    (publicApi : bool) (w : World) :
  NoDup (obj_keys userDeletionData) ->
  exists properties : JsObject,
    onUserDeletion userId userDeletionData publicApi w =
      (track (telemetry (this w)) "User deleted user" properties,
       {| this := this w; trace := trace w ++ [EvTrack "User deleted user" properties] |}) /\
    obj_get properties "user_id" = JStr userId /\
    obj_get properties "public_api" = JBool publicApi /\
    (forall k, k <> "user_id" -> k <> "public_api" ->
       obj_get properties k = obj_get userDeletionData k) /\
    (forall k, In k (obj_keys properties) <->
       k = "user_id" \/ k = "public_api" \/ In k (obj_keys userDeletionData)).
Proof.
  intros Hnodup. eexists. split; [reflexivity|].
  unfold obj_get. rewrite !obj_lookup_set. cbn [String.eqb Ascii.eqb Bool.eqb].
  split; [reflexivity|]. split; [reflexivity|]. split.
  - intros k Huser Hpublic. rewrite !obj_lookup_set.
    destruct (String.eqb_spec "public_api" k) as [E|_]; [congruence|].
    destruct (String.eqb_spec "user_id" k) as [E|_]; [congruence|].
    rewrite obj_lookup_assign by exact Hnodup.
    now destruct (obj_lookup userDeletionData k).
  - intros k. rewrite !obj_keys_set, obj_keys_assign. simpl. intuition.
Qed.

(** X6. [onServerStarted] first identifies the instance and then tracks
    'Instance started'. The payload of the event has every trait given to
    [identify], with the same value, and [earliest_workflow_created] on
    top. The promise is [Promise.all] of the two: it fulfils when both
    fulfil and rejects when one of them rejects. *)
Theorem onServerStarted_calls (diagnosticInfo : IDiagnosticInfo)
    (earliestWorkflowCreatedAt : JsValue) (w : World) :
  exists traits properties : JsObject,
    calls_of (onServerStarted diagnosticInfo earliestWorkflowCreatedAt w) w =
      [EvIdentify traits; EvTrack "Instance started" properties] /\
    obj_get traits "version_cli" = di_versionCli diagnosticInfo /\
    List.length traits = 11%nat /\
    (forall k, k <> "earliest_workflow_created" ->
       obj_get properties k = obj_get traits k) /\
    obj_get properties "earliest_workflow_created" = earliestWorkflowCreatedAt /\
    fst (onServerStarted diagnosticInfo earliestWorkflowCreatedAt w) =
      Promise_all [identify (telemetry (this w)) traits;
                   track (telemetry (this w)) "Instance started" properties] /\
    is_fulfilled (fst (onServerStarted diagnosticInfo earliestWorkflowCreatedAt w)) =
      is_fulfilled (identify (telemetry (this w)) traits) &&
      is_fulfilled (track (telemetry (this w)) "Instance started" properties) /\
    is_rejected (fst (onServerStarted diagnosticInfo earliestWorkflowCreatedAt w)) =
      is_rejected (identify (telemetry (this w)) traits) ||
      is_rejected (track (telemetry (this w)) "Instance started" properties).
Proof.
  exists (diagnosticInfoObject diagnosticInfo),
    (obj_set (obj_assign [] (diagnosticInfoObject diagnosticInfo))
       "earliest_workflow_created" earliestWorkflowCreatedAt).
  assert (Hrun : onServerStarted diagnosticInfo earliestWorkflowCreatedAt w =
    (Promise_all
       [identify (telemetry (this w)) (diagnosticInfoObject diagnosticInfo);
        track (telemetry (this w)) "Instance started"
          (obj_set (obj_assign [] (diagnosticInfoObject diagnosticInfo))
             "earliest_workflow_created" earliestWorkflowCreatedAt)],
     {| this := this w;
        trace := trace w ++
          [EvIdentify (diagnosticInfoObject diagnosticInfo);
           EvTrack "Instance started"
             (obj_set (obj_assign [] (diagnosticInfoObject diagnosticInfo))
                "earliest_workflow_created" earliestWorkflowCreatedAt)] |})).
  { unfold onServerStarted, async, telemetry_identify, telemetry_track, bind, emit,
      get_this, ret. cbn [this trace]. now rewrite <- app_assoc. }
  rewrite Hrun. cbn [fst snd].
  split; [now apply calls_of_trace|].
  split; [reflexivity|]. split; [reflexivity|]. split.
  - intros k Hk. unfold obj_get. rewrite obj_lookup_set.
    destruct (String.eqb_spec "earliest_workflow_created" k) as [E|_]; [congruence|].
    rewrite obj_lookup_assign; [now destruct (obj_lookup _ k)|].
    apply (bool_decide_unpack _). vm_compute. exact I.
  - split; [unfold obj_get; now rewrite obj_lookup_set, String.eqb_refl|].
    split; [reflexivity|].
    rewrite Promise_all_fulfilled, Promise_all_rejected. cbn [forallb existsb].
    now rewrite andb_true_r, orb_false_r.
Qed.

(** X7. Every hook but [onServerStarted], [onWorkflowPostExecute] and
    [onN8nStop] makes exactly one call, a [telemetry.track], and returns
    the promise of that call as it is: it persists nothing, logs nothing
    and rejects exactly when [telemetry.track] does. *)
Theorem single_track_hooks (env : Imports) (call : HookCall) (w : World) :
  is_single_track_hook call = true ->
  exists (eventName : string) (properties : JsObject),
    invoke env call w =
      (track (telemetry (this w)) eventName properties,
       {| this := this w; trace := trace w ++ [EvTrack eventName properties] |}) /\
    calls_of (invoke env call w) w = [EvTrack eventName properties].
Proof.
  intros Hcall.
  assert (H : exists eventName properties,
             invoke env call w =
               (track (telemetry (this w)) eventName properties,
                {| this := this w; trace := trace w ++ [EvTrack eventName properties] |})).
  { destruct call; try discriminate Hcall; eexists _, _; reflexivity. }
  destruct H as (eventName & properties & H). exists eventName, properties.
  split; [exact H|]. rewrite H. now apply calls_of_trace.
Qed.

(** The node graph in the properties: either none was generated, or the
    run is a failed manual run and the graph, its string and the value of
    [nodeGraphResult] all come from one call of [generateNodesGraph]. *)
Lemma executionProperties_graph (env : Imports) (self : InternalHooksClass)
    (workflow : IWorkflowBase) (id : JsId) (runData : option IRun) (userId : option string) :
  let G := generateNodesGraph env workflow (nodeTypes self) in
  let properties := fst (executionProperties env self workflow id runData userId) in
  let nodeGraphResult := snd (executionProperties env self workflow id runData userId) in
  (node_graph properties = None /\ node_graph_string properties = None /\
   error_node_id properties = None /\ nodeGraphResult = None) \/
  (is_manual properties = true /\ success properties = false /\
   (exists rd, runData = Some rd /\ result_error (resultData (run_data rd)) <> None) /\
   node_graph properties = Some (nodeGraph G) /\
   node_graph_string properties = Some (JSON_stringify env (nodeGraph G)) /\
   nodeGraphResult = Some G).
Proof.
  unfold executionProperties, runProperties, errorProperties, initialProperties.
  destruct runData as [rd|]; [|destruct (truthy_string userId); left; repeat split].
  destruct (truthy_string userId), (finished rd) as [[|]|],
    (result_error (resultData (run_data rd))) as [error|] eqn:Herror,
    (String.eqb (mode rd) "manual"); cbn;
    repeat case_match; simplify_eq; cbn;
    first [ left; repeat split; reflexivity
          | right; repeat split; try reflexivity; exists rd; split; congruence ].
Qed.

Lemma executionProperties_user (env : Imports) (self : InternalHooksClass)
    (workflow : IWorkflowBase) (id : JsId) (runData : option IRun) (userId : option string) :
  let properties := fst (executionProperties env self workflow id runData userId) in
  version_cli properties = versionCli self /\
  workflow_id properties = id_toString id /\
  user_id properties = match truthy_string userId with Some _ => userId | None => None end.
Proof.
  unfold executionProperties, runProperties, errorProperties, initialProperties.
  destruct runData as [rd|]; [|destruct (truthy_string userId); repeat split].
  destruct (truthy_string userId), (finished rd) as [[|]|],
    (result_error (resultData (run_data rd))) as [error|],
    (String.eqb (mode rd) "manual"); cbn;
    repeat case_match; simplify_eq; cbn; repeat split.
Qed.

(** The properties that reach [trackWorkflowExecution] are those of lines
    124 to 168. *)
Lemma tracked_properties (env : Imports) (executionId : string) (workflow : IWorkflowBase)
    (id : JsId) (runData : option IRun) (userId : option string) (w : World)
    (properties : IExecutionTrackProperties) :
  wf_id workflow = Some id -> truthy_id (Some id) = true ->
  In (EvTrackWorkflowExecution properties)
     (calls_of (onWorkflowPostExecute env executionId workflow runData userId w) w) ->
  properties = fst (executionProperties env (this w) workflow id runData userId).
Proof.
  intros Hid Htruthy Hin.
  destruct (onWorkflowPostExecute_run env executionId workflow id runData userId w Hid Htruthy)
    as (evs & Hevs & [[Hcalls _]|(Hcalls & _)]); rewrite Hcalls in Hin.
  - apply in_app_or in Hin as [Hin|[Hin|[Hin|[]]]].
    + now apply not_in_none in Hin.
    + discriminate.
    + now injection Hin.
  - now apply not_in_none in Hin.
Qed.

(** X8. The properties given to [trackWorkflowExecution] carry the version
    of the instance, the user id only when it is truthy, and a node graph
    only for a failed manual run with an error; the graph string is then
    the JSON of that graph, and there is no [error_node_id] without a
    graph. *)
Theorem tracked_properties_invariants (env : Imports) (executionId : string)
    (workflow : IWorkflowBase) (id : JsId) (runData : option IRun) (userId : option string)
    (w : World) (properties : IExecutionTrackProperties) :
  wf_id workflow = Some id -> truthy_id (Some id) = true ->
  In (EvTrackWorkflowExecution properties)
     (calls_of (onWorkflowPostExecute env executionId workflow runData userId w) w) ->
  version_cli properties = versionCli (this w) /\
  user_id properties = match truthy_string userId with Some _ => userId | None => None end /\
  (node_graph properties <> None ->
     is_manual properties = true /\ success properties = false /\
     exists rd, runData = Some rd /\ result_error (resultData (run_data rd)) <> None) /\
  (forall g, node_graph properties = Some g ->
     g = nodeGraph (generateNodesGraph env workflow (nodeTypes (this w))) /\
     node_graph_string properties = Some (JSON_stringify env g)) /\
  (error_node_id properties <> None -> node_graph properties <> None).
Proof.
  intros Hid Htruthy Hin.
  rewrite (tracked_properties env executionId workflow id runData userId w properties
             Hid Htruthy Hin).
  pose proof (executionProperties_user env (this w) workflow id runData userId)
    as (Hv & _ & Hu).
  pose proof (executionProperties_graph env (this w) workflow id runData userId) as Hg.
  cbv zeta in Hg.
  split; [exact Hv|]. split; [exact Hu|].
  destruct Hg as [(Hn & Hs & He & _)|(Hm & Hs & Hrd & Hn & Hstr & _)].
  - rewrite Hn, He. repeat split; congruence.
  - rewrite Hn.
    split; [intros _; split; [exact Hm | split; [exact Hs | exact Hrd]]|].
    split; [|congruence].
    intros g Hg. injection Hg as <-. split; [reflexivity | exact Hstr].
Qed.

(** Lines 226 to 230 after a body that collected [promises]. *)
Lemma onWorkflowPostExecute_tail (env : Imports) (executionId : string)
    (properties : IExecutionTrackProperties) (m : M (list Promise)) (w : World)
    (promises : list Promise) (evs : list Event) :
  m w = (Normal promises, {| this := this w; trace := trace w ++ evs |}) ->
  async (
    let* promises := m in
    let* p1 := persistBinaryData env executionId in
    let* p2 := telemetry_trackWorkflowExecution properties in
    ret (Promise_then_void (Promise_all (promises ++ [p1; p2])))) w =
  (Promise_then_void
     (Promise_all
        (promises ++
         [persistBinaryDataForExecutionId env executionId;
          trackWorkflowExecution (telemetry (this w)) properties])),
   {| this := this w;
      trace := trace w ++ evs ++
               [EvPersistBinaryData executionId; EvTrackWorkflowExecution properties] |}).
Proof.
  intros Hm.
  unfold async, persistBinaryData, telemetry_trackWorkflowExecution, bind, emit, get_this, ret.
  rewrite Hm. cbn [this trace]. now rewrite <- !app_assoc.
Qed.

Lemma onWorkflowPostExecute_throw (env : Imports) (executionId : string)
    (properties : IExecutionTrackProperties) (m : M (list Promise)) (w w' : World)
    (e : JsError) :
  m w = (Throw e, w') ->
  async (
    let* promises := m in
    let* p1 := persistBinaryData env executionId in
    let* p2 := telemetry_trackWorkflowExecution properties in
    ret (Promise_then_void (Promise_all (promises ++ [p1; p2])))) w =
  (Promise_reject e, w').
Proof. intros Hm. unfold async, bind. now rewrite Hm. Qed.

(** The body of [onWorkflowPostExecute] for a workflow with a truthy id. *)
Lemma onWorkflowPostExecute_body (env : Imports) (executionId : string)
    (workflow : IWorkflowBase) (id : JsId) (runData : option IRun) (userId : option string)
    (w : World) :
  wf_id workflow = Some id -> truthy_id (Some id) = true ->
  onWorkflowPostExecute env executionId workflow runData userId w =
  async (
    let* promises :=
      match runData with
      | Some rd =>
          if is_manual (fst (executionProperties env (this w) workflow id runData userId))
          then manualExecution env (this w) workflow rd
                 (fst (executionProperties env (this w) workflow id runData userId))
                 (snd (executionProperties env (this w) workflow id runData userId))
                 [Promise_resolve]
          else ret [Promise_resolve]
      | None => ret [Promise_resolve]
      end in
    let* p1 := persistBinaryData env executionId in
    let* p2 :=
      telemetry_trackWorkflowExecution
        (fst (executionProperties env (this w) workflow id runData userId)) in
    ret (Promise_then_void (Promise_all (promises ++ [p1; p2])))) w.
Proof.
  intros Hid Htruthy. unfold onWorkflowPostExecute. rewrite Hid, Htruthy. cbn [negb].
  rewrite async_get_this.
  now destruct (executionProperties env (this w) workflow id runData userId).
Qed.

(** X9. A run that is not manual, or a call without [runData], makes two
    calls and no other: [persistBinaryDataForExecutionId], then
    [trackWorkflowExecution]; nothing is tracked as an event, no node graph
    is generated for the properties, and the promise fulfils exactly when
    both calls fulfil. Without [runData] the properties say that the
    execution is neither manual nor successful. *)
Theorem onWorkflowPostExecute_not_manual (env : Imports) (executionId : string)
    (workflow : IWorkflowBase) (id : JsId) (runData : option IRun) (userId : option string)
    (w : World) :
  wf_id workflow = Some id -> truthy_id (Some id) = true ->
  (forall rd, runData = Some rd -> mode rd <> "manual") ->
  exists properties : IExecutionTrackProperties,
    onWorkflowPostExecute env executionId workflow runData userId w =
      (Promise_then_void
         (Promise_all
            [Promise_resolve;
             persistBinaryDataForExecutionId env executionId;
             trackWorkflowExecution (telemetry (this w)) properties]),
       {| this := this w;
          trace := trace w ++
                   [EvPersistBinaryData executionId;
                    EvTrackWorkflowExecution properties] |}) /\
    is_manual properties = false /\
    node_graph properties = None /\
    (runData = None ->
       success properties = false /\ execution_mode properties = None /\
       error_message properties = None) /\
    is_fulfilled (fst (onWorkflowPostExecute env executionId workflow runData userId w)) =
      is_fulfilled (persistBinaryDataForExecutionId env executionId) &&
      is_fulfilled (trackWorkflowExecution (telemetry (this w)) properties).
Proof.
  intros Hid Htruthy Hmode.
  exists (fst (executionProperties env (this w) workflow id runData userId)).
  assert (Hmanual :
    is_manual (fst (executionProperties env (this w) workflow id runData userId)) = false).
  { destruct runData as [rd|].
    - pose proof (executionProperties_fields env (this w) workflow id rd userId)
        as (_ & Hm & _). cbv zeta in Hm.
      destruct (is_manual _); [|reflexivity].
      exfalso. apply (Hmode rd eq_refl). now apply Hm.
    - unfold executionProperties, initialProperties.
      now destruct (truthy_string userId). }
  assert (Hrun :
    onWorkflowPostExecute env executionId workflow runData userId w =
      (Promise_then_void
         (Promise_all
            ([Promise_resolve] ++
             [persistBinaryDataForExecutionId env executionId;
              trackWorkflowExecution (telemetry (this w))
                (fst (executionProperties env (this w) workflow id runData userId))])),
       {| this := this w;
          trace := trace w ++ [] ++
                   [EvPersistBinaryData executionId;
                    EvTrackWorkflowExecution
                      (fst (executionProperties env (this w) workflow id runData userId))] |})).
  { rewrite (onWorkflowPostExecute_body env executionId workflow id runData userId w Hid Htruthy).
    apply onWorkflowPostExecute_tail.
    destruct runData as [rd|]; [rewrite Hmanual|]; unfold ret; now rewrite app_nil_r;
      destruct w. }
  rewrite Hrun. cbn [app fst].
  split; [reflexivity|]. split; [exact Hmanual|].
  split.
  { destruct (executionProperties_graph env (this w) workflow id runData userId)
      as [(Hn & _)|(Hm & _)]; [exact Hn | congruence]. }
  split.
  { intros ->. unfold executionProperties, initialProperties.
    destruct (truthy_string userId); repeat split. }
  rewrite Promise_then_void_id, Promise_all_fulfilled. cbn [forallb is_fulfilled Promise_resolve].
  now rewrite andb_true_r.
Qed.

(** [manualExecution] starts with lines 171 to 191. *)
Lemma manualExecution_unfold (env : Imports) (self : InternalHooksClass)
    (workflow : IWorkflowBase) (runData : IRun) (properties : IExecutionTrackProperties)
    (nodeGraphResult : option INodesGraphResult) (promises : list Promise) :
  manualExecution env self workflow runData properties nodeGraphResult promises =
  let '(m, r) := manualExecEventProperties env self workflow properties nodeGraphResult in
  match destinationNodeOf runData with
  | Some destinationNode =>
      let* p :=
        telemetry_track "Manual node exec finished"
          (obj_set
             (obj_set (obj_assign [] m) "node_type"
                (js_string
                   (option_map node_type (getNodeTypeForName env workflow destinationNode))))
             "node_id"
             (js_string (obj_lookup (nameIndices r) destinationNode))) in
      ret (promises ++ [p])
  | None =>
      console_log (JStr "A");;
      logWebhookHeaders runData r;;
      let* p := telemetry_track "Manual workflow exec finished" m in
      ret (promises ++ [p])
  end.
Proof. reflexivity. Qed.

(** The properties of the manual-execution events always carry the node
    graph of the workflow and its JSON string. *)
Lemma manualExecEventProperties_graph (env : Imports) (self : InternalHooksClass)
    (workflow : IWorkflowBase) (id : JsId) (runData : option IRun) (userId : option string) :
  let G := generateNodesGraph env workflow (nodeTypes self) in
  let properties := fst (executionProperties env self workflow id runData userId) in
  manualExecEventProperties env self workflow properties
    (snd (executionProperties env self workflow id runData userId)) =
  ([ ("workflow_id", js_id (wf_id workflow));
     ("status", JStr (if success properties then "success" else "failed"));
     ("error_message", js_string (error_message properties));
     ("error_node_type", js_string (error_node_type properties));
     ("node_graph", JGraph (nodeGraph G));
     ("node_graph_string", JStr (JSON_stringify env (nodeGraph G)));
     ("error_node_id", js_string (error_node_id properties)) ], G).
Proof.
  cbv zeta. unfold manualExecEventProperties.
  destruct (executionProperties_graph env self workflow id runData userId)
    as [(Hn & Hs & He & Hr)|(_ & _ & _ & Hn & Hs & Hr)];
    rewrite Hr, Hn, Hs; reflexivity.
Qed.

Section ManualRun.
Variable env : Imports.
Variable executionId : string.
Variable workflow : IWorkflowBase.
Variable id : JsId.
Variable runData : IRun.
Variable userId : option string.
Variable w : World.
Hypothesis workflow_id_truthy : wf_id workflow = Some id /\ truthy_id (Some id) = true.
Hypothesis manual_mode : mode runData = "manual".

Lemma manual_properties :
  is_manual (fst (executionProperties env (this w) workflow id (Some runData) userId)) = true.
Proof.
  pose proof (executionProperties_fields env (this w) workflow id runData userId)
    as (_ & Hm & _).
  now apply Hm.
Qed.

Lemma manual_body :
  onWorkflowPostExecute env executionId workflow (Some runData) userId w =
  async (
    let* promises :=
      manualExecution env (this w) workflow runData
        (fst (executionProperties env (this w) workflow id (Some runData) userId))
        (snd (executionProperties env (this w) workflow id (Some runData) userId))
        [Promise_resolve] in
    let* p1 := persistBinaryData env executionId in
    let* p2 :=
      telemetry_trackWorkflowExecution
        (fst (executionProperties env (this w) workflow id (Some runData) userId)) in
    ret (Promise_then_void (Promise_all (promises ++ [p1; p2])))) w.
Proof.
  destruct workflow_id_truthy as [Hid Htruthy].
  rewrite (onWorkflowPostExecute_body env executionId workflow id (Some runData) userId w
             Hid Htruthy).
  now rewrite manual_properties.
Qed.

Lemma manual_execution_steps (promises : list Promise) :
  manualExecution env (this w) workflow runData
    (fst (executionProperties env (this w) workflow id (Some runData) userId))
    (snd (executionProperties env (this w) workflow id (Some runData) userId))
    promises =
  let G := generateNodesGraph env workflow (nodeTypes (this w)) in
  let properties := fst (executionProperties env (this w) workflow id (Some runData) userId) in
  let m :=
    [ ("workflow_id", js_id (wf_id workflow));
      ("status", JStr (if success properties then "success" else "failed"));
      ("error_message", js_string (error_message properties));
      ("error_node_type", js_string (error_node_type properties));
      ("node_graph", JGraph (nodeGraph G));
      ("node_graph_string", JStr (JSON_stringify env (nodeGraph G)));
      ("error_node_id", js_string (error_node_id properties)) ] in
  match destinationNodeOf runData with
  | Some destinationNode =>
      let* p :=
        telemetry_track "Manual node exec finished"
          (m ++
           [ ("node_type",
              js_string
                (option_map node_type (getNodeTypeForName env workflow destinationNode)));
             ("node_id", js_string (obj_lookup (nameIndices G) destinationNode)) ]) in
      ret (promises ++ [p])
  | None =>
      console_log (JStr "A");;
      logWebhookHeaders runData G;;
      let* p := telemetry_track "Manual workflow exec finished" m in
      ret (promises ++ [p])
  end.
Proof.
  rewrite manualExecution_unfold.
  rewrite (manualExecEventProperties_graph env (this w) workflow id (Some runData) userId).
  reflexivity.
Qed.

(** X10. A manual run of one node ([startData.destinationNode] is set)
    never throws: it tracks 'Manual node exec finished' once, then persists
    the binary data, then tracks the execution. The event carries the node
    graph of the workflow and its JSON string whether the run failed or
    not, and the type and the graph id of the destination node. *)
Theorem manual_node_run (destinationNode : string) :
  destinationNodeOf runData = Some destinationNode ->
  let G := generateNodesGraph env workflow (nodeTypes (this w)) in
  let properties := fst (executionProperties env (this w) workflow id (Some runData) userId) in
  let payload :=
    [ ("workflow_id", js_id (wf_id workflow));
      ("status", JStr (if success properties then "success" else "failed"));
      ("error_message", js_string (error_message properties));
      ("error_node_type", js_string (error_node_type properties));
      ("node_graph", JGraph (nodeGraph G));
      ("node_graph_string", JStr (JSON_stringify env (nodeGraph G)));
      ("error_node_id", js_string (error_node_id properties));
      ("node_type",
        js_string (option_map node_type (getNodeTypeForName env workflow destinationNode)));
      ("node_id", js_string (obj_lookup (nameIndices G) destinationNode)) ] in
  onWorkflowPostExecute env executionId workflow (Some runData) userId w =
  (Promise_then_void
     (Promise_all
        [ Promise_resolve;
          track (telemetry (this w)) "Manual node exec finished" payload;
          persistBinaryDataForExecutionId env executionId;
          trackWorkflowExecution (telemetry (this w)) properties ]),
   {| this := this w;
      trace := trace w ++
               [ EvTrack "Manual node exec finished" payload;
                 EvPersistBinaryData executionId;
                 EvTrackWorkflowExecution properties ] |}).
Proof.
  intros Hdest. cbv zeta. rewrite manual_body.
  erewrite onWorkflowPostExecute_tail;
    [|rewrite manual_execution_steps; cbv zeta; rewrite Hdest; reflexivity].
  reflexivity.
Qed.

(** X11. A manual run of the whole workflow, when the node graph names no
    webhook node, logs [A], tracks 'Manual workflow exec finished' once
    with the node graph of the workflow, then persists the binary data and
    tracks the execution. *)
Theorem manual_workflow_run_no_webhook_node :
  destinationNodeOf runData = None ->
  truthy_string (webhookNodeName (generateNodesGraph env workflow (nodeTypes (this w)))) = None ->
  let G := generateNodesGraph env workflow (nodeTypes (this w)) in
  let properties := fst (executionProperties env (this w) workflow id (Some runData) userId) in
  let payload :=
    [ ("workflow_id", js_id (wf_id workflow));
      ("status", JStr (if success properties then "success" else "failed"));
      ("error_message", js_string (error_message properties));
      ("error_node_type", js_string (error_node_type properties));
      ("node_graph", JGraph (nodeGraph G));
      ("node_graph_string", JStr (JSON_stringify env (nodeGraph G)));
      ("error_node_id", js_string (error_node_id properties)) ] in
  onWorkflowPostExecute env executionId workflow (Some runData) userId w =
  (Promise_then_void
     (Promise_all
        [ Promise_resolve;
          track (telemetry (this w)) "Manual workflow exec finished" payload;
          persistBinaryDataForExecutionId env executionId;
          trackWorkflowExecution (telemetry (this w)) properties ]),
   {| this := this w;
      trace := trace w ++
               [ EvConsoleLog (JStr "A");
                 EvTrack "Manual workflow exec finished" payload;
                 EvPersistBinaryData executionId;
                 EvTrackWorkflowExecution properties ] |}).
Proof.
  intros Hdest Hwebhook. cbv zeta. rewrite manual_body.
  erewrite onWorkflowPostExecute_tail;
    [|rewrite manual_execution_steps; cbv zeta; rewrite Hdest;
      unfold logWebhookHeaders; rewrite Hwebhook;
      unfold telemetry_track, console_log, bind, emit, get_this, ret; cbn [this trace];
      rewrite <- !app_assoc; reflexivity].
  reflexivity.
Qed.

(** X12. A manual run of the whole workflow whose webhook node has no
    entry, or an empty entry, in [runData.data.resultData.runData]: the
    read at line 210 throws, the promise rejects with that [TypeError], and
    the method stops after logging [A] and [B]: no event is tracked, the
    binary data is not persisted and the execution is not tracked. *)
Theorem manual_workflow_run_webhook_entry_missing (name : string) :
  destinationNodeOf runData = None ->
  truthy_string (webhookNodeName (generateNodesGraph env workflow (nodeTypes (this w))))
    = Some name ->
  obj_lookup (result_runData (resultData (run_data runData))) name = None \/
  obj_lookup (result_runData (resultData (run_data runData))) name = Some [] ->
  exists reason : JsError,
    onWorkflowPostExecute env executionId workflow (Some runData) userId w =
    (Promise_reject reason,
     {| this := this w;
        trace := trace w ++ [EvConsoleLog (JStr "A"); EvConsoleLog (JStr "B")] |}) /\
    starts_with_TypeError reason = true.
Proof.
  intros Hdest Hwebhook Hentry. rewrite manual_body.
  destruct Hentry as [Hentry|Hentry]; eexists; split.
  - erewrite onWorkflowPostExecute_throw;
      [|rewrite manual_execution_steps; cbv zeta; rewrite Hdest;
        unfold logWebhookHeaders, webhookMainData; rewrite Hwebhook, Hentry;
        unfold console_log, bind, emit, throw; cbn [this trace];
        rewrite <- !app_assoc; reflexivity].
    reflexivity.
  - reflexivity.
  - erewrite onWorkflowPostExecute_throw;
      [|rewrite manual_execution_steps; cbv zeta; rewrite Hdest;
        unfold logWebhookHeaders, webhookMainData; rewrite Hwebhook, Hentry;
        unfold console_log, bind, emit, throw; cbn [this trace];
        rewrite <- !app_assoc; reflexivity].
    reflexivity.
  - reflexivity.
Qed.

(** X13. A manual run of the whole workflow whose webhook node has a first
    item writes the [headers] of that item, the headers of the request
    that the webhook received, to the console, between the logs [A], [B],
    [C] and the event 'Manual workflow exec finished'. *)
Theorem manual_workflow_run_logs_headers (name : string) (task : ITaskData)
    (tasks : list ITaskData) (connections : ITaskDataConnections)
    (item : INodeExecutionData) (items : list INodeExecutionData)
    (branches : list (option (list INodeExecutionData))) :
  destinationNodeOf runData = None ->
  truthy_string (webhookNodeName (generateNodesGraph env workflow (nodeTypes (this w))))
    = Some name ->
  obj_lookup (result_runData (resultData (run_data runData))) name = Some (task :: tasks) ->
  task_data task = Some connections ->
  obj_lookup connections "main" = Some (Some (item :: items) :: branches) ->
  exists payload : JsObject,
    calls_of (onWorkflowPostExecute env executionId workflow (Some runData) userId w) w =
      [ EvConsoleLog (JStr "A");
        EvConsoleLog (JStr "B");
        EvConsoleLog (JStr "C");
        EvConsoleLog (obj_get (json item) "headers");
        EvTrack "Manual workflow exec finished" payload;
        EvPersistBinaryData executionId;
        EvTrackWorkflowExecution
          (fst (executionProperties env (this w) workflow id (Some runData) userId)) ].
Proof.
  intros Hdest Hwebhook Hentry Hdata Hmain. eexists. rewrite manual_body.
  erewrite onWorkflowPostExecute_tail;
    [|rewrite manual_execution_steps; cbv zeta; rewrite Hdest;
      unfold logWebhookHeaders, webhookMainData; rewrite Hwebhook, Hentry, Hdata, Hmain;
      unfold telemetry_track, console_log, bind, emit, get_this, ret; cbn [this trace];
      rewrite <- !app_assoc; reflexivity].
  apply calls_of_trace. cbn [snd trace]. reflexivity.
Qed.

End ManualRun.

(** The error branch, lines 143 to 166: the node that names the error is
    the last node executed when the workflow has it, and the node of the
    error otherwise. *)
Lemma errorProperties_of_failed (env : Imports) (self : InternalHooksClass)
    (workflow : IWorkflowBase) (runData : IRun) (properties : IExecutionTrackProperties)
    (error : ExecutionError) :
  success properties = false ->
  result_error (resultData (run_data runData)) = Some error ->
  let chosen :=
    match truthy_string (lastNodeExecuted (resultData (run_data runData))) with
    | Some lastName =>
        match getNodeTypeForName env workflow lastName with
        | Some lastNode => Some lastNode
        | None => error_node error
        end
    | None => error_node error
    end in
  let properties' := fst (errorProperties env self workflow runData properties) in
  error_message properties' = Some (error_message_of error) /\
  error_node_type properties' = option_map node_type chosen /\
  (is_manual properties = true ->
   forall name, truthy_string (option_map node_name chosen) = Some name ->
   error_node_id properties' =
     obj_lookup (nameIndices (generateNodesGraph env workflow (nodeTypes self))) name) /\
  (is_manual properties = false -> error_node_id properties' = error_node_id properties).
Proof.
  intros Hsuccess Herror. destruct properties as [wid manual ver succ uid emode em ent ng ngs eid].
  cbn in Hsuccess. subst succ. cbv zeta. unfold errorProperties. cbn. rewrite Herror.
  destruct (truthy_string (lastNodeExecuted (resultData (run_data runData)))) as [lastName|];
    [destruct (getNodeTypeForName env workflow lastName) as [lastNode|]|];
    cbn; destruct manual; cbn; repeat case_match; cbn;
    (split; [reflexivity|]); (split; [reflexivity|]);
    (split; [|intros Hmanual; first [discriminate | reflexivity]]);
    intros Hmanual name Hname; try discriminate;
    cbn in *; unfold truthy_string in *; congruence.
Qed.

(** X14. For a run that failed with an error, the properties carry the
    message of the error. The node type is that of the last node executed
    when the workflow has a node of that name, and otherwise that of the
    node recorded in the error; for a manual run the node id is the graph
    id of the same node, in both cases, and a run that is not manual has no
    node id. *)
Theorem failed_run_error_node (env : Imports) (executionId : string)
    (workflow : IWorkflowBase) (id : JsId) (runData : IRun) (userId : option string)
    (w : World) (properties : IExecutionTrackProperties) (error : ExecutionError) :
  wf_id workflow = Some id -> truthy_id (Some id) = true ->
  finished runData <> Some true ->
  result_error (resultData (run_data runData)) = Some error ->
  In (EvTrackWorkflowExecution properties)
     (calls_of (onWorkflowPostExecute env executionId workflow (Some runData) userId w) w) ->
  error_message properties = Some (error_message_of error) /\
  (forall lastName lastNode,
     truthy_string (lastNodeExecuted (resultData (run_data runData))) = Some lastName ->
     getNodeTypeForName env workflow lastName = Some lastNode ->
     error_node_type properties = Some (node_type lastNode) /\
     (mode runData = "manual" -> node_name lastNode <> EmptyString ->
      error_node_id properties =
        obj_lookup (nameIndices (generateNodesGraph env workflow (nodeTypes (this w))))
          (node_name lastNode))) /\
  ((truthy_string (lastNodeExecuted (resultData (run_data runData))) = None \/
    exists lastName,
      truthy_string (lastNodeExecuted (resultData (run_data runData))) = Some lastName /\
      getNodeTypeForName env workflow lastName = None) ->
   error_node_type properties = option_map node_type (error_node error) /\
   (mode runData = "manual" ->
    forall errorNode,
      error_node error = Some errorNode -> node_name errorNode <> EmptyString ->
      error_node_id properties =
        obj_lookup (nameIndices (generateNodesGraph env workflow (nodeTypes (this w))))
          (node_name errorNode))) /\
  (mode runData <> "manual" -> error_node_id properties = None).
Proof.
  intros Hid Htruthy Hfinished Herror Hin.
  rewrite (tracked_properties env executionId workflow id (Some runData) userId w properties
             Hid Htruthy Hin).
  unfold executionProperties, runProperties.
  set (p0 := set_is_manual _ _).
  assert (Hsuccess : success p0 = false).
  { subst p0. unfold initialProperties.
    destruct (truthy_string userId), (finished runData) as [[|]|]; cbn; congruence. }
  assert (Hmanual : mode runData = "manual" -> is_manual p0 = true).
  { intros Hmode. subst p0. unfold initialProperties. rewrite Hmode.
    destruct (truthy_string userId); reflexivity. }
  assert (Hauto : mode runData <> "manual" -> is_manual p0 = false /\ error_node_id p0 = None).
  { intros Hmode. apply String.eqb_neq in Hmode. subst p0. unfold initialProperties.
    rewrite Hmode. destruct (truthy_string userId); split; reflexivity. }
  assert (Hname : forall node : INode,
            node_name node <> EmptyString ->
            truthy_string (option_map node_name (Some node)) = Some (node_name node)).
  { intros node Hne. cbn.
    destruct (String.eqb_spec (node_name node) EmptyString); [congruence | reflexivity]. }
  destruct (errorProperties_of_failed env (this w) workflow runData p0 error Hsuccess Herror)
    as (Hmessage & Htype & Hid' & Hnoid).
  split; [exact Hmessage|]. split; [|split].
  - intros lastName lastNode Hlast Hnode. rewrite Hlast, Hnode in Htype, Hid'.
    split; [exact Htype|]. intros Hmode Hne. apply Hid'; [now apply Hmanual | now apply Hname].
  - intros Hfallback.
    assert (Hchosen :
      match truthy_string (lastNodeExecuted (resultData (run_data runData))) with
      | Some lastName =>
          match getNodeTypeForName env workflow lastName with
          | Some lastNode => Some lastNode
          | None => error_node error
          end
      | None => error_node error
      end = error_node error).
    { destruct Hfallback as [Hnone|(lastName & Hlast & Hnode)];
        [now rewrite Hnone | now rewrite Hlast, Hnode]. }
    rewrite Hchosen in Htype, Hid'.
    split; [exact Htype|]. intros Hmode errorNode Herr Hne.
    rewrite Herr in Hid'. apply Hid'; [now apply Hmanual | now apply Hname].
  - intros Hmode. destruct (Hauto Hmode) as [Hnot Hnone].
    rewrite (Hnoid Hnot). exact Hnone.
Qed.

(** X15. When a key of [answers] converts to [user_id], the payload of
    'User responded to personalization questions' holds under [user_id]
    the answer given under the last such key, and no longer the id of the
    user. *)
Theorem survey_user_id_overridden (env : Imports) (userId : string)
    (before after : list (string * string)) (key value : string) (w : World) :
  NoDup (obj_keys (before ++ (key, value) :: after)) ->
  snakeCase env key = "user_id" ->
  (forall key', In key' (obj_keys after) -> snakeCase env key' <> "user_id") ->
  exists properties : JsObject,
    calls_of (onPersonalizationSurveySubmitted env userId (before ++ (key, value) :: after) w) w
      = [EvTrack "User responded to personalization questions" properties] /\
    obj_get properties "user_id" = JStr value.
Proof.
  intros Hnodup Hkey Hafter.
  exists (personalizationSurveyData env userId (before ++ (key, value) :: after)).
  unfold onPersonalizationSurveySubmitted. rewrite async_track_run. cbn [fst snd].
  split; [now apply calls_of_trace|].
  unfold personalizationSurveyData, obj_get, obj_keys. rewrite List.map_app. simpl.
  pose proof (survey_lookup_last env (before ++ (key, value) :: after)
                (List.map fst before) (List.map fst after) key [("user_id", JStr userId)])
    as Hlast.
  rewrite Hkey in Hlast. rewrite Hlast by exact Hafter.
  rewrite obj_lookup_middle; [reflexivity|].
  unfold obj_keys in Hnodup. rewrite List.map_app in Hnodup. simpl in Hnodup.
  apply NoDup_app in Hnodup as (_ & Hdisj & _).
  intros Hin. apply (Hdisj key); [now apply list_elem_of_In | left].
Qed.

End HooksMore.

(** ** The further properties on concrete runs *)

Section HooksMoreExamples.
Import InternalHooks Examples.

Lemma onUserDeletion_payload_witness :
  exists properties : JsObject,
    calls_of (onUserDeletion "u1" deletionData true okWorld) okWorld
      = [EvTrack "User deleted user" properties] /\
    obj_get properties "user_id" = JStr "u1" /\
    obj_get properties "migration_strategy" = JStr "transfer_data".
Proof.
  destruct (onUserDeletion_payload "u1" deletionData true okWorld)
    as (properties & Hrun & Huser & _ & Hother & _).
  { apply (bool_decide_unpack _). vm_compute. exact I. }
  exists properties. split; [rewrite Hrun; reflexivity|]. split; [exact Huser|].
  rewrite Hother; [reflexivity | discriminate | discriminate].
Defined.

Lemma single_track_hooks_witness :
  exists (eventName : string) (properties : JsObject),
    calls_of (invoke exampleImports (OnUserSignup [("user_id", JStr "u1")]) okWorld) okWorld
    = [EvTrack eventName properties].
Proof.
  destruct (single_track_hooks exampleImports (OnUserSignup [("user_id", JStr "u1")])
              okWorld eq_refl) as (eventName & properties & _ & Hcalls).
  exists eventName, properties. exact Hcalls.
Defined.

Lemma tracked_properties_invariants_witness :
  exists properties : IExecutionTrackProperties,
    In (EvTrackWorkflowExecution properties)
       (calls_of (onWorkflowPostExecute exampleImports "41" exampleWorkflow
                    (Some failedNodeRun) (Some "u1") okWorld) okWorld) /\
    version_cli properties = "0.181.0" /\
    user_id properties = Some "u1" /\
    node_graph_string properties = Some "{}".
Proof.
  eexists. split; [right; right; left; reflexivity|].
  destruct (tracked_properties_invariants exampleImports "41" exampleWorkflow (IdNumber 12)
              (Some failedNodeRun) (Some "u1") okWorld _ eq_refl eq_refl
              (or_intror (or_intror (or_introl eq_refl))))
    as (Hversion & Huser & _ & Hgraph & _).
  split; [exact Hversion|]. split; [exact Huser|].
  exact (proj2 (Hgraph _ eq_refl)).
Defined.

Lemma onWorkflowPostExecute_not_manual_witness :
  List.map is_persistBinaryData
    (calls_of (onWorkflowPostExecute exampleImports "41" exampleWorkflow (Some triggerRun)
                 None okWorld) okWorld)
  = [true; false].
Proof.
  destruct (onWorkflowPostExecute_not_manual exampleImports "41" exampleWorkflow (IdNumber 12)
              (Some triggerRun) None okWorld eq_refl eq_refl)
    as (properties & Hrun & _).
  { intros rd Hrd. injection Hrd as <-. discriminate. }
  rewrite Hrun. reflexivity.
Defined.

Lemma manual_node_run_witness :
  List.map is_track
    (calls_of (onWorkflowPostExecute exampleImports "41" exampleWorkflow (Some failedNodeRun)
                 None okWorld) okWorld)
  = [true; false; false].
Proof.
  rewrite (manual_node_run exampleImports "41" exampleWorkflow (IdNumber 12) failedNodeRun
             None okWorld (conj eq_refl eq_refl) eq_refl "Webhook" eq_refl).
  reflexivity.
Defined.

Lemma manual_workflow_run_no_webhook_node_witness :
  List.map is_consoleLog
    (calls_of (onWorkflowPostExecute plainImports "41" exampleWorkflow
                 (Some manualRunWithoutWebhookData) None okWorld) okWorld)
  = [true; false; false; false].
Proof.
  rewrite (manual_workflow_run_no_webhook_node plainImports "41" exampleWorkflow (IdNumber 12)
             manualRunWithoutWebhookData None okWorld (conj eq_refl eq_refl) eq_refl
             eq_refl eq_refl).
  reflexivity.
Defined.

Lemma manual_workflow_run_webhook_entry_missing_witness :
  exists reason : JsError,
    onWorkflowPostExecute exampleImports "41" exampleWorkflow
      (Some manualRunWithoutWebhookData) None okWorld
    = (Promise_reject reason,
       {| this := this okWorld;
          trace := trace okWorld ++ [EvConsoleLog (JStr "A"); EvConsoleLog (JStr "B")] |}) /\
    starts_with_TypeError reason = true.
Proof.
  exact (manual_workflow_run_webhook_entry_missing exampleImports "41" exampleWorkflow
           (IdNumber 12) manualRunWithoutWebhookData None okWorld (conj eq_refl eq_refl)
           eq_refl "Webhook" eq_refl eq_refl (or_introl eq_refl)).
Defined.

Lemma manual_workflow_run_logs_headers_witness :
  In (EvConsoleLog (JObj [("host", JStr "n8n.example")]))
     (calls_of (onWorkflowPostExecute exampleImports "41" exampleWorkflow
                  (Some manualRunWithWebhookData) None okWorld) okWorld).
Proof.
  destruct (manual_workflow_run_logs_headers exampleImports "41" exampleWorkflow (IdNumber 12)
              manualRunWithWebhookData None okWorld (conj eq_refl eq_refl) eq_refl
              "Webhook" _ _ _ _ _ _ eq_refl eq_refl eq_refl eq_refl eq_refl)
    as (payload & Hcalls).
  rewrite Hcalls. right. right. right. left. reflexivity.
Defined.

Lemma failed_run_error_node_witness :
  exists properties : IExecutionTrackProperties,
    In (EvTrackWorkflowExecution properties)
       (calls_of (onWorkflowPostExecute exampleImports "41" exampleWorkflow
                    (Some failedNodeRun) None okWorld) okWorld) /\
    error_message properties = Some "Request failed" /\
    error_node_type properties = Some "n8n-nodes-base.webhook".
Proof.
  eexists. split; [right; right; left; reflexivity|].
  destruct (failed_run_error_node exampleImports "41" exampleWorkflow (IdNumber 12)
              failedNodeRun None okWorld _
              {| error_message_of := "Request failed"; error_node := Some webhookNode |}
              eq_refl eq_refl ltac:(discriminate) eq_refl
              (or_intror (or_intror (or_introl eq_refl))))
    as (Hmessage & Hfound & _).
  split; [exact Hmessage|].
  exact (proj1 (Hfound "Webhook" webhookNode eq_refl eq_refl)).
Defined.

Lemma survey_user_id_overridden_witness :
  exists properties : JsObject,
    calls_of (onPersonalizationSurveySubmitted exampleImports "u1" answersWithUserId okWorld)
      okWorld
    = [EvTrack "User responded to personalization questions" properties] /\
    obj_get properties "user_id" = JStr "someone-else".
Proof.
  apply (survey_user_id_overridden exampleImports "u1" [("companySize", "20-99")] []
           "userId" "someone-else" okWorld).
  - apply (bool_decide_unpack _). vm_compute. exact I.
  - reflexivity.
  - intros key' [].
Defined.

End HooksMoreExamples.
